(** * MCPStack: a shallow embedding of the scripts and the properties of
      their specification.

    The repository is a set of Python scripts that delegate their real
    work to external services (a chat model, a web search, Wikipedia, a
    vector store).  The embedding keeps the scripts' own control flow,
    dictionaries, exception handlers and printing, and takes every
    external call as an oracle: a function of the interaction history
    (the events so far) and of the call's arguments, which returns a
    value or raises.

    Part I holds the definitions, one module per source file; Part II
    holds the lemmas and the theorems. *)

From stdpp Require Import gmap strings list fin_maps pretty.
From Stdlib Require Import ZArith Ascii.

Set Warnings "-register-all,-clear-no-such-hyp".
#[local] Open Scope Z_scope.

(* ===================================================================== *)
(** * Part I: definitions                                                 *)
(* ===================================================================== *)

(** ** Python values, exceptions and effects *)

Module Py.

(** The exceptions a script can see.  [PyExc cls msg] is an instance of a
    subclass of [Exception], [str(e)] being [msg]; [SystemExit] is what
    [sys.exit] raises, and is no [Exception]. *)
Inductive exn : Type :=
| PyExc (cls : string) (msg : string)
| SystemExit (code : Z).

Definition exn_str (e : exn) : string :=
  match e with
  | PyExc _ msg => msg
  | SystemExit code => pretty code
  end.

Inductive result (A : Type) : Type :=
| Ok (a : A)
| Raise (e : exn).
Arguments Ok {A} a.
Arguments Raise {A} e.

Definition is_Ok {A} (r : result A) : Prop :=
  match r with Ok _ => True | Raise _ => False end.

(** What a call into a library does: it returns, or it raises an
    [Exception] of class [cls] with message [msg]. *)
Inductive reply (A : Type) : Type :=
| Returns (a : A)
| Fails (cls : string) (msg : string).
Arguments Returns {A} a.
Arguments Fails {A} cls msg.

Definition result_of {A} (r : reply A) : result A :=
  match r with
  | Returns a => Ok a
  | Fails cls msg => Raise (PyExc cls msg)
  end.

(** Values of type [Any]: what JSON holds, plus objects of the script's
    own model classes ([O]).  Dictionaries have string keys. *)
Inductive Any (O : Type) : Type :=
| ANone
| ABool (b : bool)
| AInt (z : Z)
| AStr (s : string)
| AList (l : list (Any O))
| ADict (d : gmap string (Any O))
| AObj (o : O).
Arguments ANone {O}.
Arguments ABool {O} b.
Arguments AInt {O} z.
Arguments AStr {O} s.
Arguments AList {O} l.
Arguments ADict {O} d.
Arguments AObj {O} o.

(** [bool(v)]: what [if not v] tests.  A model object defines neither
    [__bool__] nor [__len__], so it is true. *)
Definition truthy {O} (v : Any O) : bool :=
  match v with
  | ANone => false
  | ABool b => b
  | AInt z => negb (z =? 0)
  | AStr s => negb (String.eqb s "")
  | AList l => match l with [] => false | _ => true end
  | ADict d => negb (Nat.eqb (size d) 0)
  | AObj _ => true
  end.

Definition type_name {O} (v : Any O) : string :=
  match v with
  | ANone => "NoneType"
  | ABool _ => "bool"
  | AInt _ => "int"
  | AStr _ => "str"
  | AList _ => "list"
  | ADict _ => "dict"
  | AObj _ => "object"
  end.

(** [d.get(key, dflt)] on a dictionary. *)
Definition dict_get {O} (d : gmap string (Any O)) (key : string) (dflt : Any O) : Any O :=
  default dflt (d !! key).

(** [str(v)], and what an f-string writes for [{v}]: a string as it is,
    anything else by its representation [repr]. *)
Definition py_str {O} (repr : Any O → string) (v : Any O) : string :=
  match v with
  | AStr s => s
  | _ => repr v
  end.

(** [text.startswith(start)] *)
Fixpoint starts_with (start text : string) : bool :=
  match start with
  | EmptyString => true
  | String a start' =>
      match text with
      | EmptyString => false
      | String b text' => Ascii.eqb a b && starts_with start' text'
      end
  end.

(** [needle in hay] on strings. *)
Fixpoint str_in (needle hay : string) : bool :=
  starts_with needle hay ||
  match hay with
  | EmptyString => false
  | String _ hay' => str_in needle hay'
  end.

(** [sep.join(parts)] *)
Fixpoint join (sep : string) (parts : list string) : string :=
  match parts with
  | [] => ""
  | [p] => p
  | p :: rest => p +:+ sep +:+ join sep rest
  end.

Definition NL : string := String (ascii_of_nat 10) "".

(** [key in container], the key a string. *)
Definition contains {O} (container : Any O) (key : string) : reply bool :=
  match container with
  | ADict d => Returns (bool_decide (is_Some (d !! key)))
  | AStr s => Returns (str_in key s)
  | AList l => Returns (existsb (λ v, match v with AStr s => String.eqb s key | _ => false end) l)
  | AObj _ => Returns false
  | _ => Fails "TypeError" ("argument of type '" +:+ type_name container +:+ "' is not iterable")
  end.

(** [container[key]], the key a string. *)
Definition getitem {O} (container : Any O) (key : string) : reply (Any O) :=
  match container with
  | ADict d =>
      match d !! key with
      | Some v => Returns v
      | None => Fails "KeyError" ("'" +:+ key +:+ "'")
      end
  | _ => Fails "TypeError" ("'" +:+ type_name container +:+ "' object is not subscriptable with a string")
  end.

(** [v.get(key, dflt)] *)
Definition method_get {O} (v : Any O) (key : string) (dflt : Any O) : reply (Any O) :=
  match v with
  | ADict d => Returns (dict_get d key dflt)
  | _ => Fails "AttributeError" ("'" +:+ type_name v +:+ "' object has no attribute 'get'")
  end.

(** What a run does to the outside world, in order. *)
Inductive Event : Type :=
| EvPrint (line : string)                      (* print(line) *)
| EvModel (prompt : string)                    (* a chat-completion request *)
| EvWebSearch (query : string)                 (* Tavily search *)
| EvWikipedia (query : string)                 (* Wikipedia search *)
| EvReadFile (path : string)                   (* open + json.load *)
| EvChromaClient (path : string)               (* chromadb.PersistentClient *)
| EvGetCollection (name : string)              (* client.get_collection *)
| EvQuery (query : string) (n_results : Z)     (* a similarity query *)
| EvNode (name : string).                      (* the graph executor enters a node *)

(** A computation reads the history, extends it, and returns or raises. *)
Definition M (A : Type) : Type := list Event → result A * list Event.

Definition ret {A} (a : A) : M A := λ tr, (Ok a, tr).

Definition bind {A B} (m : M A) (f : A → M B) : M B :=
  λ tr, match m tr with
        | (Ok a, tr') => f a tr'
        | (Raise e, tr') => (Raise e, tr')
        end.

Definition raise {A} (e : exn) : M A := λ tr, (Raise e, tr).

Definition lift {A} (r : reply A) : M A := λ tr, (result_of r, tr).

Definition emit (ev : Event) : M unit := λ tr, (Ok tt, tr ++ [ev]).

(** An external call: logged, answered by the oracle from the history
    before the call. *)
Definition external {A} (ev : Event) (oracle : list Event → reply A) : M A :=
  λ tr, (result_of (oracle tr), tr ++ [ev]).

Definition print (line : string) : M unit := emit (EvPrint line).

(** [try: m  except Exception as e: h e].  [SystemExit] passes through. *)
Definition try_except {A} (m : M A) (h : exn → M A) : M A :=
  λ tr, match m tr with
        | (Raise (PyExc cls msg), tr') => h (PyExc cls msg) tr'
        | other => other
        end.

(** [sys.exit(code)] *)
Definition sys_exit {A} (code : Z) : M A := raise (SystemExit code).

(** [for x in xs: s = body x s] *)
Fixpoint for_in {A S} (xs : list A) (body : A → S → M S) (s : S) : M S :=
  match xs with
  | [] => ret s
  | x :: xs' => bind (body x s) (for_in xs' body)
  end.

(** [xs[i]] on a list, for [i >= 0]. *)
Definition list_index {A} (xs : list A) (i : nat) : reply A :=
  match xs !! i with
  | Some x => Returns x
  | None => Fails "IndexError" "list index out of range"
  end.

(** [enumerate(xs, start)] *)
Definition enumerate {A} (start : nat) (xs : list A) : list (nat * A) :=
  zip (seq start (length xs)) xs.

(** [m] only appends to the history, the events it appends satisfy [P],
    and it never leaves through [sys.exit]. *)
Definition appends (P : Event → Prop) {A} (m : M A) : Prop :=
  ∀ tr, ∃ evs,
    (m tr).2 = tr ++ evs ∧ Forall P evs ∧ ∀ code, (m tr).1 ≠ Raise (SystemExit code).

Definition any_event (ev : Event) : Prop := True.

Definition not_node (ev : Event) : Prop :=
  match ev with EvNode _ => False | _ => True end.

End Py.

Declare Scope py_scope.
Delimit Scope py_scope with py.
Notation "x <- m ;; k" := (Py.bind m (λ x, k))
  (at level 100, m at next level, right associativity) : py_scope.
Notation "m ;; k" := (Py.bind m (λ _, k))
  (at level 100, right associativity) : py_scope.
#[local] Open Scope py_scope.

(** ** idea_agent.py *)

Module IdeaAgent.
Import Py.

Record Task : Type := {
  name : string;
  description : string;
  tools_needed : list string;
  estimated_complexity : string;
}.

Record DecomposedIdea : Type := {
  original_idea : string;
  summary : string;
  tasks : list Task;
  implementation_plan : string;
}.

(** The script holds plain data only: no model object is stored in a
    dictionary. *)
Abbreviation Any := (Py.Any Empty_set).

(** What the script takes from its libraries. *)
Record Lib : Type := {
  (* parser.get_format_instructions() *)
  format_instructions : string;
  (* the chat model behind [decomposition_prompt | model | StrOutputParser()] *)
  model_invoke : list Event → string → reply string;
  (* PydanticOutputParser(pydantic_object=DecomposedIdea).parse *)
  parser_parse : string → reply DecomposedIdea;
}.

(** [os.environ], and the variables of the .env file. *)
Abbreviation environ := (gmap string string).

(** [load_dotenv()]: a variable of the .env file is set unless the
    process already has it. *)
Definition load_dotenv (dotenv env : environ) : environ := env ∪ dotenv.

Definition getenv (env : environ) (key : string) : option string := env !! key.

Definition api_key_error : exn :=
  PyExc "ValueError"
    "DEEPSEEK_API_KEY не найден в переменных окружения. Пожалуйста, добавьте его в .env файл.".

(** The module's statements up to the key check (lines 13-17): what is
    below them, the model included, is built only when the check passes. *)
Definition module_load (dotenv env : environ) : M environ :=
  let env := load_dotenv dotenv env in
  match getenv env "DEEPSEEK_API_KEY" with
  | None => raise api_key_error
  | Some key => if String.eqb key "" then raise api_key_error else ret env
  end.

(** [python idea_agent.py]: the module is loaded, then the entry point
    under [if __name__ == "__main__"] runs. *)
Definition run_script {A} (dotenv env : environ) (entry : M A) : M A :=
  module_load dotenv env ;; entry.

Section Script.
Variable L : Lib.

Definition decomposition_prompt (idea : string) : string :=
  "
Ты - опытный аналитик и разработчик. Твоя задача - помочь пользователю декомпозировать его идею на конкретные задачи, 
которые нужно выполнить для её реализации.

Идея пользователя:
" +:+ idea +:+ "

Проанализируй эту идею и разбей её на логические задачи. Для каждой задачи определи:
1. Название задачи
2. Подробное описание того, что нужно сделать
3. Необходимые инструменты или API
4. Оценку сложности (низкая, средняя, высокая)

Затем составь общий план реализации идеи, указав последовательность выполнения задач и их взаимосвязи.

" +:+ format_instructions L +:+ "
".

(** [decomposition_chain.invoke(idea)] *)
Definition decomposition_chain_invoke (idea : string) : M string :=
  let prompt := decomposition_prompt idea in
  external (EvModel prompt) (λ tr, model_invoke L tr prompt).

(** [task.dict()] and [parsed_result.dict()] *)
Definition Task_dict (t : Task) : gmap string Any :=
  {[ "name" := AStr (name t);
     "description" := AStr (description t);
     "tools_needed" := AList (AStr <$> tools_needed t);
     "estimated_complexity" := AStr (estimated_complexity t) ]}.

Definition DecomposedIdea_dict (d : DecomposedIdea) : gmap string Any :=
  {[ "original_idea" := AStr (original_idea d);
     "summary" := AStr (summary d);
     "tasks" := AList ((λ t, ADict (Task_dict t)) <$> tasks d);
     "implementation_plan" := AStr (implementation_plan d) ]}.

Definition decompose_idea (idea : string) : M (gmap string Any) :=
  try_except
    (result <- decomposition_chain_invoke idea ;;
     try_except
       (parsed_result <- lift (parser_parse L result) ;;
        ret (DecomposedIdea_dict parsed_result))
       (λ e,
          print ("Ошибка при парсинге ответа: " +:+ exn_str e) ;;
          ret {[ "raw_response" := AStr result ]}))
    (λ e, ret {[ "error" := AStr (exn_str e) ]}).

End Script.
End IdeaAgent.

(** ** advanced_idea_agent.py *)

Module AdvancedIdeaAgent.
Import Py.

Record Task : Type := {
  name : string;
  description : string;
  tools_needed : list string;
  estimated_complexity : string;
  category : string;
}.

Record DecomposedIdea : Type := {
  original_idea : string;
  summary : string;
  tasks : list Task;
  implementation_plan : string;
}.

(** The state's values: plain data, or a [DecomposedIdea] object. *)
Abbreviation Any := (Py.Any DecomposedIdea).

(** [class AgentState(TypedDict)]: a dictionary; a key that was never
    written is absent.  A node returns the keys it writes. *)
Abbreviation AgentState := (gmap string Any).

Definition AgentState_keys : list string :=
  ["idea"; "decomposed_idea"; "research_results"; "current_task"; "final_report"].

(** What the script takes from its libraries. *)
Record Lib : Type := {
  (* parser.get_format_instructions() *)
  format_instructions : string;
  (* ChatDeepSeek: [model.invoke(prompt).content], and [prompt | model | StrOutputParser()] *)
  model_invoke : list Event → string → reply string;
  (* PydanticOutputParser(pydantic_object=DecomposedIdea).parse *)
  parser_parse : string → reply DecomposedIdea;
  (* TavilySearchResults(max_results=3): the tool is built, or its validation raises *)
  tavily_tool : reply unit;
  (* search_tool.invoke *)
  tavily_invoke : list Event → string → reply Any;
  (* WikipediaAPIWrapper(): the wrapper is built, or its validation raises *)
  wikipedia_wrapper : reply unit;
  (* wiki.run *)
  wikipedia_run : list Event → string → reply string;
  (* str.lower *)
  str_lower : string → string;
  (* repr of a value that is no string *)
  py_repr : Any → string;
}.

Abbreviation environ := (gmap string string).

Definition load_dotenv (dotenv env : environ) : environ := env ∪ dotenv.

Definition getenv (env : environ) (key : string) : option string := env !! key.

Definition api_key_error : exn :=
  PyExc "ValueError"
    "DEEPSEEK_API_KEY не найден в переменных окружения. Пожалуйста, добавьте его в .env файл.".

(** The module's statements up to the key check (lines 20-24). *)
Definition module_load (dotenv env : environ) : M environ :=
  let env := load_dotenv dotenv env in
  match getenv env "DEEPSEEK_API_KEY" with
  | None => raise api_key_error
  | Some key => if String.eqb key "" then raise api_key_error else ret env
  end.

Definition run_script {A} (dotenv env : environ) (entry : M A) : M A :=
  module_load dotenv env ;; entry.

(** [v.field] where the code expects a [DecomposedIdea]. *)
Definition attr {A} (field : DecomposedIdea → A) (fname : string) (v : Any) : reply A :=
  match v with
  | AObj d => Returns (field d)
  | _ => Fails "AttributeError" ("'" +:+ type_name v +:+ "' object has no attribute '" +:+ fname +:+ "'")
  end.

(** [state[key]] *)
Definition state_getitem (state : AgentState) (key : string) : reply Any :=
  match state !! key with
  | Some v => Returns v
  | None => Fails "KeyError" ("'" +:+ key +:+ "'")
  end.

Section Script.
Variable L : Lib.

Definition str (v : Any) : string := py_str (py_repr L) v.

(** [model.invoke(prompt).content] *)
Definition call_model (prompt : string) : M string :=
  external (EvModel prompt) (λ tr, model_invoke L tr prompt).

Definition search_web (query : string) : M string :=
  search_tool <- lift (tavily_tool L) ;;
  try_except
    (results <- external (EvWebSearch query) (λ tr, tavily_invoke L tr query) ;;
     ret (str results))
    (λ e, ret ("Ошибка при поиске: " +:+ exn_str e)).

Definition search_wikipedia (query : string) : M string :=
  wiki <- lift (wikipedia_wrapper L) ;;
  try_except
    (external (EvWikipedia query) (λ tr, wikipedia_run L tr query))
    (λ e, ret ("Ошибка при поиске в Википедии: " +:+ exn_str e)).

(** The two search tools can be built. *)
Definition tools_built : Prop :=
  (∃ tool, tavily_tool L = Returns tool) ∧ (∃ wiki, wikipedia_wrapper L = Returns wiki).

Definition code_prompt (task_description : string) : string :=
  "Напиши код для решения следующей задачи:" +:+ NL +:+ NL +:+ task_description +:+ NL +:+ NL +:+
  "Предоставь полный код с комментариями и объяснением.".

Definition generate_code_snippet (task_description : string) : M string :=
  call_model (code_prompt task_description).

Definition decomposition_prompt (idea : string) : string :=
  "
Ты - опытный аналитик и разработчик. Твоя задача - помочь пользователю декомпозировать его идею на конкретные задачи, 
которые нужно выполнить для её реализации.

Идея пользователя:
" +:+ idea +:+ "

Проанализируй эту идею и разбей её на логические задачи. Для каждой задачи определи:
1. Название задачи
2. Подробное описание того, что нужно сделать
3. Необходимые инструменты или API
4. Оценку сложности (низкая, средняя, высокая)
5. Категорию задачи (например, 'сбор данных', 'анализ', 'разработка', 'публикация')

Задачи должны быть определены исходя из контекста идеи. Они не фиксированы и могут включать:
- Сбор и парсинг данных
- Обращение к базам данных
- Поиск информации (например, в Википедии)
- Создание человекочитаемого текста
- Написание кода
- Публикация результатов
- Любые другие задачи, необходимые для реализации идеи

Затем составь общий план реализации идеи, указав последовательность выполнения задач и их взаимосвязи.

" +:+ format_instructions L +:+ "
".

(** The record the step stores when parsing fails: a plain dictionary. *)
Definition parse_failure_record (idea : Any) (result_text : string) : Any :=
  ADict {[ "original_idea" := idea;
           "summary" := AStr "Ошибка парсинга";
           "tasks" := AList [];
           "implementation_plan" := AStr result_text ]}.

Definition decompose_idea_step (state : AgentState) : M AgentState :=
  idea <- lift (state_getitem state "idea") ;;
  result_text <- call_model (decomposition_prompt (str idea)) ;;
  try_except
    (decomposed <- lift (parser_parse L result_text) ;;
     ret {[ "decomposed_idea" := AObj decomposed ]})
    (λ e,
       print ("Ошибка при парсинге: " +:+ exn_str e) ;;
       ret {[ "decomposed_idea" := parse_failure_record idea result_text ]}).

(** The category tests of lines 154 and 176. *)
Definition is_research_task (task : Task) : bool :=
  str_in "сбор данных" (str_lower L (category task)) ||
  str_in "поиск" (str_lower L (category task)).

Definition is_code_task (task : Task) : bool :=
  str_in "разработка" (str_lower L (category task)) ||
  str_in "код" (str_lower L (category task)).

(** The body of the loop of [research_tasks] (lines 154-163). *)
Definition research_task (decomposed_idea : Any) (task : Task)
    (research_results : gmap string Any) : M (gmap string Any) :=
  if is_research_task task then
    idea_summary <- lift (attr summary "summary" decomposed_idea) ;;
    let search_query := idea_summary +:+ " " +:+ name task in
    web_results <- search_web search_query ;;
    wiki_results <- search_wikipedia (name task) ;;
    ret (<[ name task := ADict {[ "web_search" := AStr web_results;
                                  "wikipedia" := AStr wiki_results ]} ]>
           research_results)
  else ret research_results.

Definition research_tasks (state : AgentState) : M AgentState :=
  let decomposed_idea := dict_get state "decomposed_idea" ANone in
  if negb (truthy decomposed_idea) then ret {[ "research_results" := ADict ∅ ]}
  else
    task_list <- lift (attr tasks "tasks" decomposed_idea) ;;
    research_results <- for_in task_list (research_task decomposed_idea) ∅ ;;
    ret {[ "research_results" := ADict research_results ]}.

(** The body of the loop of [generate_code_for_tasks] (lines 176-178). *)
Definition code_task (decomposed_idea : Any) (task : Task)
    (code_snippets : gmap string Any) : M (gmap string Any) :=
  if is_code_task task then
    idea_summary <- lift (attr summary "summary" decomposed_idea) ;;
    code <- generate_code_snippet (idea_summary +:+ " - " +:+ description task) ;;
    ret (<[ name task := AStr code ]> code_snippets)
  else ret code_snippets.

Definition generate_code_for_tasks (state : AgentState) : M AgentState :=
  let decomposed_idea := dict_get state "decomposed_idea" ANone in
  if negb (truthy decomposed_idea) then ret {[ "code_snippets" := ADict ∅ ]}
  else
    task_list <- lift (attr tasks "tasks" decomposed_idea) ;;
    code_snippets <- for_in task_list (code_task decomposed_idea) ∅ ;;
    ret {[ "code_snippets" := ADict code_snippets ]}.

(** The three pieces of text [create_final_report] adds for a task. *)
Definition task_section (i : nat) (task : Task) : string :=
  "
### " +:+ pretty i +:+ ". " +:+ name task +:+ " (Сложность: " +:+ estimated_complexity task +:+
  ", Категория: " +:+ category task +:+ ")
**Описание:** " +:+ description task +:+ "
**Необходимые инструменты:** " +:+ join ", " (tools_needed task) +:+ "
".

Definition research_section (web wiki : Any) : string :=
  "
**Результаты исследования:**
- Веб-поиск: " +:+ str web +:+ "
- Википедия: " +:+ str wiki +:+ "
".

Definition code_section (code : Any) : string :=
  "
**Сгенерированный код:**
```python
" +:+ str code +:+ "
```
".

(** The external calls the two steps make for the tasks [ts] of the idea
    [d]: two searches per research task, one model call per code task. *)
Definition research_calls (d : DecomposedIdea) (ts : list Task) : list Event :=
  flat_map (λ task, [EvWebSearch (summary d +:+ " " +:+ name task); EvWikipedia (name task)])
           (List.filter is_research_task ts).

Definition code_calls (d : DecomposedIdea) (ts : list Task) : list Event :=
  (λ task, EvModel (code_prompt (summary d +:+ " - " +:+ description task)))
    <$> List.filter is_code_task ts.

Definition create_final_report (state : AgentState) : M AgentState :=
  let decomposed_idea := dict_get state "decomposed_idea" ANone in
  let research_results := dict_get state "research_results" (ADict ∅) in
  let code_snippets := dict_get state "code_snippets" (ADict ∅) in
  if negb (truthy decomposed_idea) then
    ret {[ "final_report" := AStr "Не удалось декомпозировать идею." ]}
  else
    idea_summary <- lift (attr summary "summary" decomposed_idea) ;;
    idea_text <- lift (attr original_idea "original_idea" decomposed_idea) ;;
    let report := "
# Отчет по идее: " +:+ idea_summary +:+ "

## Исходная идея
" +:+ idea_text +:+ "

## Краткое описание
" +:+ idea_summary +:+ "

## Задачи
" in
    task_list <- lift (attr tasks "tasks" decomposed_idea) ;;
    report <-
      for_in (enumerate 1 task_list)
        (λ '(i, task) (report : string),
           let report := report +:+ task_section i task in
           researched <- lift (contains research_results (name task)) ;;
           report <-
             (if researched : bool then
                entry <- lift (getitem research_results (name task)) ;;
                web <- lift (method_get entry "web_search" (AStr "Нет данных")) ;;
                entry' <- lift (getitem research_results (name task)) ;;
                wiki <- lift (method_get entry' "wikipedia" (AStr "Нет данных")) ;;
                ret (report +:+ research_section web wiki)
              else ret report) ;;
           coded <- lift (contains code_snippets (name task)) ;;
           if coded : bool then
             code <- lift (getitem code_snippets (name task)) ;;
             ret (report +:+ code_section code)
           else ret report)
        report ;;
    plan <- lift (attr implementation_plan "implementation_plan" decomposed_idea) ;;
    ret {[ "final_report" := AStr (report +:+ "
## План реализации
" +:+ plan +:+ "
") ]}.

(** *** The state graph (langgraph's [StateGraph]) *)

Definition Node : Type := AgentState → M AgentState.

Record StateGraph : Type := {
  channels : list string;                         (* the keys of the state schema *)
  nodes : list (string * Node);                   (* add_node *)
  edges : list (string * string);                 (* add_edge *)
  branches : list (string * (AgentState → string)); (* add_conditional_edges *)
}.

Definition START : string := "__start__".

Definition StateGraph_new (keys : list string) : StateGraph :=
  {| channels := keys; nodes := []; edges := []; branches := [] |}.

Definition add_node (node_name : string) (action : Node) (g : StateGraph) : StateGraph :=
  {| channels := channels g; nodes := nodes g ++ [(node_name, action)];
     edges := edges g; branches := branches g |}.

Definition add_edge (start_key end_key : string) (g : StateGraph) : StateGraph :=
  {| channels := channels g; nodes := nodes g;
     edges := edges g ++ [(start_key, end_key)]; branches := branches g |}.

Definition workflow : StateGraph :=
  let g := StateGraph_new AgentState_keys in
  let g := add_node "decompose_idea" decompose_idea_step g in
  let g := add_node "research_tasks" research_tasks g in
  let g := add_node "generate_code" generate_code_for_tasks g in
  let g := add_node "create_report" create_final_report g in
  let g := add_edge START "decompose_idea" g in
  let g := add_edge "decompose_idea" "research_tasks" g in
  let g := add_edge "research_tasks" "generate_code" g in
  let g := add_edge "generate_code" "create_report" g in
  g.

End Script.

(** *** The compiled graph's executor

    A run proceeds in steps.  The nodes of a step all read the state as
    it was when the step began; what they return is then written to the
    state, a key outside the schema being dropped; the next step runs
    the nodes an edge (or a branch) leads to from the nodes that just
    ran.  The run ends when no node is left to run (a node with no
    outgoing edge ends it), and fails when the recursion limit (25 steps)
    is used up. *)

Definition apply_update (keys : list string) (state update : AgentState) : AgentState :=
  filter (λ kv, kv.1 ∈ keys) update ∪ state.

Fixpoint assoc {A} (key : string) (l : list (string * A)) : option A :=
  match l with
  | [] => None
  | (k, v) :: l' => if String.eqb k key then Some v else assoc key l'
  end.

Definition triggered (g : StateGraph) (ran : list string) (state : AgentState) : list string :=
  List.filter
    (λ n, existsb (λ e, bool_decide (e.1 ∈ ran) && String.eqb e.2 n) (edges g) ||
          existsb (λ b, bool_decide (b.1 ∈ ran) && String.eqb (b.2 state) n) (branches g))
    (nodes g).*1.

Definition run_node (g : StateGraph) (state : AgentState) (n : string) : M AgentState :=
  emit (EvNode n) ;;
  match assoc n (nodes g) with
  | Some action => action state
  | None => raise (PyExc "ValueError" ("unknown node " +:+ n))
  end.

Definition recursion_limit : nat := 25.

Fixpoint pregel_loop (g : StateGraph) (fuel : nat) (todo : list string) (state : AgentState)
  : M AgentState :=
  match todo with
  | [] => ret state
  | _ =>
      match fuel with
      | O => raise (PyExc "GraphRecursionError" "Recursion limit of 25 reached")
      | S fuel' =>
          writes <- for_in todo (λ n acc, w <- run_node g state n ;; ret (acc ++ [w])) [] ;;
          let state' := foldl (apply_update (channels g)) state writes in
          pregel_loop g fuel' (triggered g todo state') state'
      end
  end.

(** [workflow.compile().invoke(input)] *)
Definition invoke (g : StateGraph) (input : AgentState) : M AgentState :=
  let state := apply_update (channels g) ∅ input in
  pregel_loop g recursion_limit (triggered g [START] state) state.

Section Agent.
Variable L : Lib.

Definition agent_executor_invoke (input : AgentState) : M AgentState :=
  invoke (workflow L) input.

Definition process_idea (idea : string) : M AgentState :=
  try_except
    (result <- agent_executor_invoke {[ "idea" := AStr idea ]} ;;
     ret result)
    (λ e, ret {[ "error" := AStr (exn_str e) ]}).

End Agent.

(** The names of the nodes a run entered, in order. *)
Definition nodes_run (evs : list Event) : list string :=
  omap (λ ev, match ev with EvNode n => Some n | _ => None end) evs.

(** The step relation of a graph: its edges between nodes. *)
Definition edge (g : StateGraph) (a b : string) : Prop := (a, b) ∈ edges g.

(** The four nodes of [workflow], in the order of its edges. *)
Definition pipeline_nodes : list string :=
  ["decompose_idea"; "research_tasks"; "generate_code"; "create_report"].

End AdvancedIdeaAgent.

(** ** vectorize_mcp_servers.py *)

Module VectorizeMcpServers.
Import Py.

Abbreviation Any := (Py.Any Empty_set).

(** langchain's [Document] *)
Record Document : Type := {
  page_content : string;
  metadata : gmap string Any;
}.

(** What the script takes from its libraries.  The vector store is
    represented by the documents it was built from. *)
Record Lib : Type := {
  (* open(file_path, "r") and json.load *)
  read_json : list Event → string → reply Any;
  (* repr of a value that is no string *)
  py_repr : Any → string;
  (* vector_store.as_retriever(search_kwargs={"k": k}).get_relevant_documents *)
  get_relevant_documents : list Event → list Document → string → Z → reply (list Document);
}.

(** The contract of the retriever: at most [k] documents. *)
Definition retriever_bounded (L : Lib) : Prop :=
  ∀ tr vector_store query k docs,
    get_relevant_documents L tr vector_store query k = Returns docs →
    Z.of_nat (length docs) ≤ k.

Definition MCP_SERVERS_FILE : string := "mcp-servers.json".

Section Script.
Variable L : Lib.

Definition str (v : Any) : string := py_str (py_repr L) v.

Definition load_mcp_servers (file_path : string) : M Any :=
  data <- external (EvReadFile file_path) (λ tr, read_json L tr file_path) ;;
  lift (getitem data "servers").

(** The text of a server (lines 33-40). *)
Definition server_content (server : gmap string Any) : string :=
  "
        Name: " +:+ str (dict_get server "displayName" (AStr "")) +:+ "
        Qualified Name: " +:+ str (dict_get server "qualifiedName" (AStr "")) +:+ "
        Description: " +:+ str (dict_get server "description" (AStr "")) +:+ "
        Homepage: " +:+ str (dict_get server "homepage" (AStr "")) +:+ "
        Use Count: " +:+ str (dict_get server "useCount" (AInt 0)) +:+ "
        Created At: " +:+ str (dict_get server "createdAt" (AStr "")) +:+ "
        ".

Definition server_document (i : nat) (server : gmap string Any) : Document :=
  {| page_content := server_content server;
     metadata :=
       {[ "id" := AInt (Z.of_nat i);
          "qualifiedName" := dict_get server "qualifiedName" (AStr "");
          "displayName" := dict_get server "displayName" (AStr "");
          "description" := dict_get server "description" (AStr "");
          "homepage" := dict_get server "homepage" (AStr "");
          "useCount" := dict_get server "useCount" (AInt 0);
          "createdAt" := dict_get server "createdAt" (AStr "") ]} |}.

(** The loop of lines 29-57: [documents] grows by one document per
    server, in order. *)
Definition create_documents_from_servers (servers : list (gmap string Any)) : list Document :=
  foldl (λ documents '(i, server), documents ++ [server_document i server])
        [] (enumerate 0 servers).

Definition query_vector_store (vector_store : list Document) (query : string) (k : option Z)
  : M (list Document) :=
  let k := default 5 k in
  docs <- external (EvQuery query k) (λ tr, get_relevant_documents L tr vector_store query k) ;;
  ret docs.

End Script.
End VectorizeMcpServers.

(** ** The chromadb client, as search_chroma.py and explore_chroma.py use it *)

Module Chroma.
Import Py.

Abbreviation Any := (Py.Any Empty_set).

(** What [collection.query] returns: one row per query text. *)
Record QueryResult : Type := {
  ids : list (list string);
  documents : list (list string);
  metadatas : list (list (gmap string Any));
  distances : list (list Any);
}.

Record Lib : Type := {
  (* os.path.abspath *)
  abspath : string → string;
  (* chromadb.PersistentClient(path=...) *)
  PersistentClient : list Event → string → reply unit;
  (* client.get_collection(name) *)
  get_collection : list Event → string → reply unit;
  (* collection.query(query_texts=[query_text], n_results=n_results) *)
  collection_query : list Event → string → Z → reply QueryResult;
  (* int(text) *)
  py_int : string → reply Z;
  (* repr of a value that is no string *)
  py_repr : Any → string;
  (* json.dumps(value, indent=2) *)
  json_dumps : Any → string;
  (* text[:200] *)
  first_200 : string → string;
}.

(** The contract of [collection.query]: a row holds at most [n_results]
    entries. *)
Definition query_bounded (L : Lib) : Prop :=
  ∀ tr query_text n_results r,
    collection_query L tr query_text n_results = Returns r →
    Forall (λ row, Z.of_nat (length row) ≤ n_results) (ids r).

(** The header line of a printed result, up to its number. *)
Definition result_header : string := NL +:+ "--- Result ".

Definition not_query (ev : Event) : Prop :=
  match ev with EvQuery _ _ => False | _ => True end.

(** How many results a run printed. *)
Definition results_printed (evs : list Event) : nat :=
  length (List.filter
            (λ ev, match ev with
                   | EvPrint line => starts_with result_header line
                   | _ => false
                   end) evs).

End Chroma.

(** ** search_chroma.py *)

Module SearchChroma.
Import Py Chroma.

Definition PERSIST_DIRECTORY : string := "./chroma_db".
Definition COLLECTION_NAME : string := "mcp_servers".

Definition usage : string :=
  String.app "Usage: python search_chroma.py "
    (String.app (String (ascii_of_nat 34) "your search query")
       (String.app (String (ascii_of_nat 34) "") " [number_of_results]")).

Section Script.
Variable L : Lib.

Definition str (v : Any) : string := py_str (py_repr L) v.

(** The body of the loop over the results (lines 40-46). *)
Definition print_result (results : QueryResult) (item : nat * (string * gmap string Any))
    (_ : unit) : M unit :=
  let '(i, (doc_id, metadata)) := item in
  print (NL +:+ "--- Result " +:+ pretty (i + 1)%nat +:+ " ---") ;;
  print ("Name: " +:+ str (dict_get metadata "displayName" (AStr "Unknown"))) ;;
  print ("Qualified Name: " +:+ str (dict_get metadata "qualifiedName" (AStr "Unknown"))) ;;
  print ("Description: " +:+
         str (dict_get metadata "description" (AStr "No description available"))) ;;
  print ("Homepage: " +:+ str (dict_get metadata "homepage" (AStr "Unknown"))) ;;
  print ("Use Count: " +:+ str (dict_get metadata "useCount" (AInt 0))) ;;
  row_distances <- lift (list_index (distances results) 0) ;;
  distance <- lift (list_index row_distances i) ;;
  print ("Distance: " +:+ str distance).

Definition search_collection (query_text : string) (n_results : option Z) : M unit :=
  let n_results := default 5 n_results in
  let full_path := abspath L PERSIST_DIRECTORY in
  print ("Using Chroma database at: " +:+ full_path) ;;
  client <- external (EvChromaClient PERSIST_DIRECTORY)
              (λ tr, PersistentClient L tr PERSIST_DIRECTORY) ;;
  collection <- external (EvGetCollection COLLECTION_NAME)
                  (λ tr, get_collection L tr COLLECTION_NAME) ;;
  print ("Searching for: '" +:+ query_text +:+ "'") ;;
  results <- external (EvQuery query_text n_results)
               (λ tr, collection_query L tr query_text n_results) ;;
  found <- lift (list_index (ids results) 0) ;;
  print (NL +:+ "Found " +:+ pretty (length found) +:+ " results:") ;;
  row_ids <- lift (list_index (ids results) 0) ;;
  row_metadatas <- lift (list_index (metadatas results) 0) ;;
  for_in (enumerate 0 (zip row_ids row_metadatas)) (print_result results) tt.

(** The statements under [if __name__ == "__main__"], [argv] being
    [sys.argv]. *)
Definition main (argv : list string) : M unit :=
  if bool_decide (length argv < 2)%nat then
    print usage ;;
    sys_exit 1
  else
    query <- lift (list_index argv 1) ;;
    n_results <-
      (if bool_decide (2 < length argv)%nat then
         arg <- lift (list_index argv 2) ;;
         lift (py_int L arg)
       else ret 5) ;;
    search_collection query (Some n_results).

End Script.
End SearchChroma.

(** ** explore_chroma.py *)

Module ExploreChroma.
Import Py Chroma.

Section Script.
Variable L : Lib.

Definition str (v : Any) : string := py_str (py_repr L) v.

(** The body of the loop over the results (lines 56-60). *)
Definition print_result (results : QueryResult)
    (item : nat * (string * (string * gmap string Any))) (_ : unit) : M unit :=
  let '(i, (doc_id, (doc, metadata))) := item in
  print (NL +:+ "--- Result " +:+ pretty (i + 1)%nat +:+ " ---") ;;
  print ("ID: " +:+ doc_id) ;;
  print ("Metadata: " +:+ json_dumps L (ADict metadata)) ;;
  print ("Document: " +:+ first_200 L doc +:+ "...") ;;
  row_distances <- lift (list_index (distances results) 0) ;;
  distance <- lift (list_index row_distances i) ;;
  print ("Distance: " +:+ str distance).

(** [collection] is the collection [main] got from the client. *)
Definition search_collection (collection : unit) (query_text : string) (n_results : option Z)
  : M unit :=
  let n_results := default 5 n_results in
  print (NL +:+ "Searching for: '" +:+ query_text +:+ "'") ;;
  results <- external (EvQuery query_text n_results)
               (λ tr, collection_query L tr query_text n_results) ;;
  found <- lift (list_index (ids results) 0) ;;
  print (NL +:+ "Found " +:+ pretty (length found) +:+ " results:") ;;
  row_ids <- lift (list_index (ids results) 0) ;;
  row_documents <- lift (list_index (documents results) 0) ;;
  row_metadatas <- lift (list_index (metadatas results) 0) ;;
  for_in (enumerate 0 (zip row_ids (zip row_documents row_metadatas))) (print_result results) tt.

End Script.
End ExploreChroma.

(** ** Sample libraries and inputs

    Concrete replies of the external services, on which the definitions
    above can be run. *)

Module Sample.
Import Py.

Definition repr {O} (v : Any O) : string :=
  match v with
  | ANone => "None"
  | ABool true => "True"
  | ABool false => "False"
  | AInt z => pretty z
  | _ => "<" +:+ type_name v +:+ ">"
  end.

(** Lower case for the letters A-Z; the categories below are in lower
    case already. *)
Definition lower_ascii (c : ascii) : ascii :=
  let n := nat_of_ascii c in
  if bool_decide (65 ≤ n ≤ 90)%nat then ascii_of_nat (n + 32) else c.

Fixpoint lower (s : string) : string :=
  match s with
  | EmptyString => EmptyString
  | String c s' => String (lower_ascii c) (lower s')
  end.

(** *** The advanced agent *)

Definition collect : AdvancedIdeaAgent.Task :=
  {| AdvancedIdeaAgent.name := "collect";
     AdvancedIdeaAgent.description := "fetch the news pages";
     AdvancedIdeaAgent.tools_needed := ["requests"];
     AdvancedIdeaAgent.estimated_complexity := "низкая";
     AdvancedIdeaAgent.category := "сбор данных" |}.

Definition build : AdvancedIdeaAgent.Task :=
  {| AdvancedIdeaAgent.name := "build";
     AdvancedIdeaAgent.description := "write the bot";
     AdvancedIdeaAgent.tools_needed := ["python"; "telegram"];
     AdvancedIdeaAgent.estimated_complexity := "средняя";
     AdvancedIdeaAgent.category := "разработка" |}.

Definition publish : AdvancedIdeaAgent.Task :=
  {| AdvancedIdeaAgent.name := "publish";
     AdvancedIdeaAgent.description := "announce the bot";
     AdvancedIdeaAgent.tools_needed := [];
     AdvancedIdeaAgent.estimated_complexity := "низкая";
     AdvancedIdeaAgent.category := "публикация" |}.

Definition news_bot : AdvancedIdeaAgent.DecomposedIdea :=
  {| AdvancedIdeaAgent.original_idea := "a bot that posts the news";
     AdvancedIdeaAgent.summary := "news bot";
     AdvancedIdeaAgent.tasks := [collect; build; publish];
     AdvancedIdeaAgent.implementation_plan := "collect, then build, then publish" |}.

(** Every service answers. *)
Definition services_up : AdvancedIdeaAgent.Lib :=
  {| AdvancedIdeaAgent.format_instructions := "Return a JSON object.";
     AdvancedIdeaAgent.model_invoke := λ _ _, Returns "{...}";
     AdvancedIdeaAgent.parser_parse := λ _, Returns news_bot;
     AdvancedIdeaAgent.tavily_tool := Returns ();
     AdvancedIdeaAgent.tavily_invoke := λ _ _, Returns (AList []);
     AdvancedIdeaAgent.wikipedia_wrapper := Returns ();
     AdvancedIdeaAgent.wikipedia_run := λ _ _, Returns "News is information about current events.";
     AdvancedIdeaAgent.str_lower := lower;
     AdvancedIdeaAgent.py_repr := repr |}.

(** The chat model cannot be reached. *)
Definition model_down : AdvancedIdeaAgent.Lib :=
  {| AdvancedIdeaAgent.format_instructions := "Return a JSON object.";
     AdvancedIdeaAgent.model_invoke := λ _ _, Fails "APIConnectionError" "Connection error.";
     AdvancedIdeaAgent.parser_parse := λ _, Returns news_bot;
     AdvancedIdeaAgent.tavily_tool := Returns ();
     AdvancedIdeaAgent.tavily_invoke := λ _ _, Returns (AList []);
     AdvancedIdeaAgent.wikipedia_wrapper := Returns ();
     AdvancedIdeaAgent.wikipedia_run := λ _ _, Returns "News is information about current events.";
     AdvancedIdeaAgent.str_lower := lower;
     AdvancedIdeaAgent.py_repr := repr |}.

(** The chat model answers in prose, which the parser rejects. *)
Definition prose_answer : AdvancedIdeaAgent.Lib :=
  {| AdvancedIdeaAgent.format_instructions := "Return a JSON object.";
     AdvancedIdeaAgent.model_invoke := λ _ _, Returns "Sure, here is a plan.";
     AdvancedIdeaAgent.parser_parse := λ _, Fails "OutputParserException" "Invalid json output";
     AdvancedIdeaAgent.tavily_tool := Returns ();
     AdvancedIdeaAgent.tavily_invoke := λ _ _, Returns (AList []);
     AdvancedIdeaAgent.wikipedia_wrapper := Returns ();
     AdvancedIdeaAgent.wikipedia_run := λ _ _, Returns "News is information about current events.";
     AdvancedIdeaAgent.str_lower := lower;
     AdvancedIdeaAgent.py_repr := repr |}.

(** *** The basic agent *)

Definition write_post : IdeaAgent.Task :=
  {| IdeaAgent.name := "write";
     IdeaAgent.description := "write the post";
     IdeaAgent.tools_needed := ["editor"];
     IdeaAgent.estimated_complexity := "низкая" |}.

Definition blog : IdeaAgent.DecomposedIdea :=
  {| IdeaAgent.original_idea := "a blog";
     IdeaAgent.summary := "blog";
     IdeaAgent.tasks := [write_post];
     IdeaAgent.implementation_plan := "write, then publish" |}.

Definition chat_up : IdeaAgent.Lib :=
  {| IdeaAgent.format_instructions := "Return a JSON object.";
     IdeaAgent.model_invoke := λ _ _, Returns "{...}";
     IdeaAgent.parser_parse := λ _, Returns blog |}.

(** *** The vector store *)

Definition github : gmap string Chroma.Any :=
  {[ "displayName" := AStr "GitHub"; "qualifiedName" := AStr "@smithery/github";
     "useCount" := AInt 120 ]}.

Definition postgres : gmap string Chroma.Any :=
  {[ "displayName" := AStr "Postgres"; "qualifiedName" := AStr "@smithery/postgres";
     "homepage" := AStr "https://example.org/postgres" ]}.

Definition browser : gmap string Chroma.Any :=
  {[ "displayName" := AStr "Browser"; "description" := AStr "Browser automation" ]}.

(** [int] on a string of decimal digits. *)
Fixpoint digits (s : string) (acc : Z) : reply Z :=
  match s with
  | EmptyString => Returns acc
  | String c s' =>
      let n := nat_of_ascii c in
      if bool_decide (48 ≤ n ≤ 57)%nat then digits s' (10 * acc + Z.of_nat (n - 48))
      else Fails "ValueError" "invalid literal for int() with base 10"
  end.

Definition int (s : string) : reply Z :=
  match s with
  | EmptyString => Fails "ValueError" "invalid literal for int() with base 10"
  | _ => digits s 0
  end.

(** A store of three entries; a query returns the first [n_results]. *)
Definition three_entries : Chroma.Lib :=
  {| Chroma.abspath := λ path, "/srv/mcp/" +:+ path;
     Chroma.PersistentClient := λ _ _, Returns ();
     Chroma.get_collection := λ _ _, Returns ();
     Chroma.collection_query := λ _ _ n,
       if n <=? 0 then Fails "ValueError" "Number of requested results cannot be negative, or zero."
       else Returns {| Chroma.ids := [take (Z.to_nat n) ["0"; "1"; "2"]];
                       Chroma.documents := [take (Z.to_nat n) ["GitHub"; "Postgres"; "Browser"]];
                       Chroma.metadatas := [take (Z.to_nat n) [github; postgres; browser]];
                       Chroma.distances := [take (Z.to_nat n) [AInt 0; AInt 1; AInt 2]] |};
     Chroma.py_int := int;
     Chroma.py_repr := repr;
     Chroma.json_dumps := repr;
     Chroma.first_200 := λ text, text |}.

(** The database directory cannot be opened. *)
Definition no_database : Chroma.Lib :=
  {| Chroma.abspath := λ path, "/srv/mcp/" +:+ path;
     Chroma.PersistentClient := λ _ _, Fails "ValueError" "Could not connect to tenant default_tenant.";
     Chroma.get_collection := λ _ _, Returns ();
     Chroma.collection_query := λ _ _ _, Fails "ValueError" "no collection";
     Chroma.py_int := int;
     Chroma.py_repr := repr;
     Chroma.json_dumps := repr;
     Chroma.first_200 := λ text, text |}.

(** The vectorize script with no catalog file; its retriever returns the
    first [k] documents of the store. *)
Definition vectorize : VectorizeMcpServers.Lib :=
  {| VectorizeMcpServers.read_json := λ _ _, Fails "FileNotFoundError" "No such file or directory";
     VectorizeMcpServers.py_repr := repr;
     VectorizeMcpServers.get_relevant_documents := λ _ store _ k,
       if k <=? 0 then Fails "ValueError" "k must be positive" else Returns (take (Z.to_nat k) store) |}.

End Sample.

(* ===================================================================== *)
(** * Part II: lemmas and theorems                                        *)
(* ===================================================================== *)

(** ** How computations extend the history *)

Section MonadFacts.
Import Py.
Context {A B : Type}.
Variable P : Event → Prop.

Lemma appends_ret (a : A) : appends P (ret a).
Proof. intros tr. exists []. simpl. rewrite app_nil_r. auto. Qed.

Lemma appends_lift (r : reply A) : appends P (lift r).
Proof.
  intros tr. exists []. simpl. rewrite app_nil_r. repeat split; auto.
  intros code. destruct r; discriminate.
Qed.

Lemma appends_raise (cls msg : string) : appends P (raise (A := A) (PyExc cls msg)).
Proof. intros tr. exists []. simpl. rewrite app_nil_r. repeat split; auto; discriminate. Qed.

Lemma appends_external (ev : Event) (oracle : list Event → reply A) :
  P ev → appends P (external ev oracle).
Proof.
  intros Hev tr. exists [ev]. simpl. repeat split; auto.
  intros code. destruct (oracle tr); discriminate.
Qed.

Lemma appends_bind (m : M A) (f : A → M B) :
  appends P m → (∀ a, appends P (f a)) → appends P (bind m f).
Proof.
  intros Hm Hf tr. unfold bind.
  destruct (Hm tr) as (evs & Htr & Hevs & Hexit).
  destruct (m tr) as [[a | e] tr1]; simpl in *; subst tr1.
  - destruct (Hf a (tr ++ evs)) as (evs' & Htr' & Hevs' & Hexit').
    exists (evs ++ evs'). rewrite Htr', app_assoc.
    split; [reflexivity |]. split; [by apply Forall_app | exact Hexit'].
  - exists evs. split; [reflexivity |]. split; [exact Hevs |].
    intros code Heq. apply (Hexit code). by inversion Heq.
Qed.

Lemma appends_try_except (m : M A) (h : exn → M A) :
  appends P m → (∀ e, appends P (h e)) → appends P (try_except m h).
Proof.
  intros Hm Hh tr. unfold try_except.
  destruct (Hm tr) as (evs & Htr & Hevs & Hexit).
  destruct (m tr) as [[a | [cls msg | code]] tr1]; simpl in *; subst tr1.
  - exists evs. auto.
  - destruct (Hh (PyExc cls msg) (tr ++ evs)) as (evs' & Htr' & Hevs' & Hexit').
    exists (evs ++ evs'). rewrite Htr', app_assoc.
    split; [reflexivity |]. split; [by apply Forall_app | exact Hexit'].
  - exists evs. auto.
Qed.

End MonadFacts.

Section EffectFacts.
Import Py.

Lemma appends_for_in {X S} (P : Event → Prop) (xs : list X) (body : X → S → M S) (s : S) :
  (∀ x s', appends P (body x s')) → appends P (for_in xs body s).
Proof.
  intros Hbody. revert s. induction xs as [| x xs IH]; intros s; simpl.
  - apply appends_ret.
  - apply appends_bind; auto.
Qed.

Lemma appends_emit (P : Event → Prop) (ev : Event) : P ev → appends P (emit ev).
Proof. intros Hev tr. exists [ev]. simpl. repeat split; auto; discriminate. Qed.

Lemma appends_print (P : Event → Prop) (line : string) : P (EvPrint line) → appends P (print line).
Proof. apply appends_emit. Qed.

End EffectFacts.

(** ** idea_agent.py *)

Section IdeaAgentFacts.
Import Py IdeaAgent.
Variable L : Lib.

Lemma Task_dict_dom (t : Task) :
  dom (Task_dict t) =
  ({[ "name"; "description"; "tools_needed"; "estimated_complexity" ]} : gset string).
Proof. unfold Task_dict. rewrite !dom_insert_L, dom_singleton_L. set_solver. Qed.

Lemma DecomposedIdea_dict_dom (d : DecomposedIdea) :
  dom (DecomposedIdea_dict d) =
  ({[ "original_idea"; "summary"; "tasks"; "implementation_plan" ]} : gset string).
Proof. unfold DecomposedIdea_dict. rewrite !dom_insert_L, dom_singleton_L. set_solver. Qed.

(** C8: [decompose_idea] always returns a dictionary, of one of three
    shapes that the replies of the model and of the parser select: the
    parsed record as a dictionary (keys original_idea, summary, tasks,
    implementation_plan) when both succeed; [{"raw_response": text}] alone
    when the model answers and parsing fails; [{"error": message}] alone
    when the model call fails.  The three key sets are pairwise disjoint,
    so a failure shape holds no field of the record. *)
Theorem C8_decompose_idea_three_shapes (idea : string) (tr : list Event) :
  let record_keys : gset string :=
    {[ "original_idea"; "summary"; "tasks"; "implementation_plan" ]} in
  (∃ (d : gmap string Any) (evs : list Event),
      decompose_idea L idea tr = (Ok d, tr ++ evs) ∧
      match model_invoke L tr (decomposition_prompt L idea) with
      | Returns text =>
          match parser_parse L text with
          | Returns parsed => d = DecomposedIdea_dict parsed ∧ dom d = record_keys
          | Fails _ _ => d = {[ "raw_response" := AStr text ]} ∧ dom d = {[ "raw_response" ]}
          end
      | Fails _ msg => d = {[ "error" := AStr msg ]} ∧ dom d = {[ "error" ]}
      end) ∧
  record_keys ## {[ "raw_response" ]} ∧
  record_keys ## {[ "error" ]} ∧
  ({[ "raw_response" ]} : gset string) ## {[ "error" ]}.
Proof.
  intros record_keys. split; [| subst record_keys; set_solver].
  unfold decompose_idea, decomposition_chain_invoke, try_except, bind, external, lift, print,
    emit, ret.
  destruct (model_invoke L tr (decomposition_prompt L idea)) as [text | cls msg]; simpl.
  - destruct (parser_parse L text) as [parsed | cls msg]; simpl.
    + eexists _, _. split; [reflexivity |]. split; [reflexivity |].
      apply DecomposedIdea_dict_dom.
    + eexists _, [_; _]. rewrite <- app_assoc. split; [reflexivity |].
      split; [reflexivity |]. apply dom_singleton_L.
  - eexists _, _. split; [reflexivity |]. split; [reflexivity |]. apply dom_singleton_L.
Qed.

End IdeaAgentFacts.

(** ** The key check of the two idea-agent scripts *)

Section ApiKeyCheck.
Import Py.

Lemma idea_agent_key_missing (dotenv env : IdeaAgent.environ) (tr : list Event) :
  IdeaAgent.getenv (IdeaAgent.load_dotenv dotenv env) "DEEPSEEK_API_KEY" = None ∨
  IdeaAgent.getenv (IdeaAgent.load_dotenv dotenv env) "DEEPSEEK_API_KEY" = Some "" →
  IdeaAgent.module_load dotenv env tr = (Raise IdeaAgent.api_key_error, tr).
Proof.
  unfold IdeaAgent.module_load. intros [-> | ->]; reflexivity.
Qed.

Lemma idea_agent_key_present (dotenv env : IdeaAgent.environ) (key : string) (tr : list Event) :
  IdeaAgent.getenv (IdeaAgent.load_dotenv dotenv env) "DEEPSEEK_API_KEY" = Some key →
  key ≠ "" →
  IdeaAgent.module_load dotenv env tr = (Ok (IdeaAgent.load_dotenv dotenv env), tr).
Proof.
  unfold IdeaAgent.module_load. intros -> Hne.
  destruct (String.eqb key "") eqn:E; [| reflexivity].
  apply String.eqb_eq in E. contradiction.
Qed.

Lemma advanced_key_missing (dotenv env : AdvancedIdeaAgent.environ) (tr : list Event) :
  AdvancedIdeaAgent.getenv (AdvancedIdeaAgent.load_dotenv dotenv env) "DEEPSEEK_API_KEY" = None ∨
  AdvancedIdeaAgent.getenv (AdvancedIdeaAgent.load_dotenv dotenv env) "DEEPSEEK_API_KEY" = Some "" →
  AdvancedIdeaAgent.module_load dotenv env tr = (Raise AdvancedIdeaAgent.api_key_error, tr).
Proof.
  unfold AdvancedIdeaAgent.module_load. intros [-> | ->]; reflexivity.
Qed.

Lemma advanced_key_present (dotenv env : AdvancedIdeaAgent.environ) (key : string)
    (tr : list Event) :
  AdvancedIdeaAgent.getenv (AdvancedIdeaAgent.load_dotenv dotenv env) "DEEPSEEK_API_KEY"
    = Some key →
  key ≠ "" →
  AdvancedIdeaAgent.module_load dotenv env tr
    = (Ok (AdvancedIdeaAgent.load_dotenv dotenv env), tr).
Proof.
  unfold AdvancedIdeaAgent.module_load. intros -> Hne.
  destruct (String.eqb key "") eqn:E; [| reflexivity].
  apply String.eqb_eq in E. contradiction.
Qed.

(** What [os.getenv] finds after [load_dotenv()]: the process's own
    variable when it has one (an empty one included), else the .env
    file's. *)
Lemma getenv_after_load_dotenv (dotenv env : gmap string string) (key : string) :
  IdeaAgent.getenv (IdeaAgent.load_dotenv dotenv env) key =
  match env !! key with
  | Some v => Some v
  | None => dotenv !! key
  end.
Proof.
  unfold IdeaAgent.getenv, IdeaAgent.load_dotenv.
  rewrite lookup_union. destruct (env !! key), (dotenv !! key); reflexivity.
Qed.

(** C7: the key check of both scripts.  [key_now] is what
    [os.getenv("DEEPSEEK_API_KEY")] reads at the check, that is, after
    [load_dotenv()].  When it is absent or empty the module raises the
    ValueError, and the script's entry point (hence every model call) is
    never run: the history stays as it was.  When it is a non-empty
    string the check passes and the entry point runs.  No other variable
    is consulted: the outcome is a function of [key_now] alone.
    [key_now] is the process's own variable when it has one (even an
    empty one), and the .env file's otherwise. *)
Theorem C7_api_key_required (dotenv env : gmap string string) (tr : list Event)
    (A : Type) (entry : M A) :
  let key_now := IdeaAgent.getenv (IdeaAgent.load_dotenv dotenv env) "DEEPSEEK_API_KEY" in
  key_now = match env !! "DEEPSEEK_API_KEY" with
            | Some v => Some v
            | None => dotenv !! "DEEPSEEK_API_KEY"
            end ∧
  (key_now = None ∨ key_now = Some "" →
     IdeaAgent.run_script dotenv env entry tr = (Raise IdeaAgent.api_key_error, tr) ∧
     AdvancedIdeaAgent.run_script dotenv env entry tr
       = (Raise AdvancedIdeaAgent.api_key_error, tr) ∧
     IdeaAgent.api_key_error = PyExc "ValueError" (exn_str IdeaAgent.api_key_error) ∧
     AdvancedIdeaAgent.api_key_error = PyExc "ValueError" (exn_str AdvancedIdeaAgent.api_key_error)) ∧
  (∀ key, key_now = Some key → key ≠ "" →
     IdeaAgent.module_load dotenv env tr = (Ok (IdeaAgent.load_dotenv dotenv env), tr) ∧
     IdeaAgent.run_script dotenv env entry tr = entry tr ∧
     AdvancedIdeaAgent.module_load dotenv env tr
       = (Ok (AdvancedIdeaAgent.load_dotenv dotenv env), tr) ∧
     AdvancedIdeaAgent.run_script dotenv env entry tr = entry tr) ∧
  (∀ dotenv' env' : gmap string string,
     IdeaAgent.getenv (IdeaAgent.load_dotenv dotenv' env') "DEEPSEEK_API_KEY" = key_now →
     (is_Ok (IdeaAgent.module_load dotenv' env' tr).1 ↔
      is_Ok (IdeaAgent.module_load dotenv env tr).1) ∧
     (is_Ok (AdvancedIdeaAgent.module_load dotenv' env' tr).1 ↔
      is_Ok (AdvancedIdeaAgent.module_load dotenv env tr).1)).
Proof.
  intros key_now. split; [apply getenv_after_load_dotenv |]. split; [| split].
  - intros Hmissing.
    unfold IdeaAgent.run_script, AdvancedIdeaAgent.run_script, bind.
    rewrite idea_agent_key_missing by exact Hmissing.
    rewrite advanced_key_missing by exact Hmissing.
    repeat split; reflexivity.
  - intros key Hkey Hne.
    unfold IdeaAgent.run_script, AdvancedIdeaAgent.run_script, bind.
    rewrite (idea_agent_key_present dotenv env key tr Hkey Hne).
    rewrite (advanced_key_present dotenv env key tr Hkey Hne).
    repeat split; reflexivity.
  - intros dotenv' env' Hsame.
    unfold IdeaAgent.module_load, AdvancedIdeaAgent.module_load.
    change (AdvancedIdeaAgent.getenv (AdvancedIdeaAgent.load_dotenv dotenv' env'))
      with (IdeaAgent.getenv (IdeaAgent.load_dotenv dotenv' env')).
    change (AdvancedIdeaAgent.getenv (AdvancedIdeaAgent.load_dotenv dotenv env))
      with (IdeaAgent.getenv (IdeaAgent.load_dotenv dotenv env)).
    rewrite Hsame. subst key_now.
    destruct (IdeaAgent.getenv (IdeaAgent.load_dotenv dotenv env) "DEEPSEEK_API_KEY") as [key |];
      [destruct (String.eqb key "") |]; simpl; tauto.
Qed.

End ApiKeyCheck.

(** ** vectorize_mcp_servers.py *)

Section VectorizeFacts.
Import Py VectorizeMcpServers.
Variable L : Lib.

Lemma documents_loop (servers : list (gmap string Any)) (start : nat) (documents : list Document) :
  foldl (λ documents '(i, server), documents ++ [server_document L i server])
        documents (enumerate start servers)
  = documents ++ imap (λ i, server_document L (start + i)) servers.
Proof.
  unfold enumerate.
  revert start documents. induction servers as [| server servers IH]; intros start documents.
  - simpl. by rewrite app_nil_r.
  - simpl. rewrite IH, <- app_assoc. simpl. rewrite Nat.add_0_r.
    do 2 f_equal. apply imap_ext. intros i x _. simpl. f_equal. lia.
Qed.

Lemma create_documents_imap (servers : list (gmap string Any)) :
  create_documents_from_servers L servers = imap (server_document L) servers.
Proof.
  unfold create_documents_from_servers. rewrite documents_loop. simpl.
  apply imap_ext. intros i x _. reflexivity.
Qed.

Lemma server_document_keys (i : nat) (server : gmap string Any) :
  dom (metadata (server_document L i server)) =
  ({[ "id"; "qualifiedName"; "displayName"; "description"; "homepage"; "useCount";
      "createdAt" ]} : gset string).
Proof. simpl. rewrite !dom_insert_L, dom_singleton_L. set_solver. Qed.

(** C3: [create_documents_from_servers] converts the entries one to one
    and in order: it returns as many documents as there are entries, and
    the document at index [i] is built from the entry at index [i] alone.
    Its metadata has the keys id, qualifiedName, displayName, description,
    homepage, useCount and createdAt; id is [i], and each of the other six
    is the entry's value under that key, or the default ("" and 0 for
    useCount) when the entry has no such key.  The function only reads
    its argument: [servers] is the same list before and after. *)
Theorem C3_one_document_per_server (servers : list (gmap string Any)) :
  length (create_documents_from_servers L servers) = length servers ∧
  ∀ (i : nat) (server : gmap string Any),
    servers !! i = Some server →
    ∃ doc : Document,
      create_documents_from_servers L servers !! i = Some doc ∧
      doc = server_document L i server ∧
      metadata doc !! "id" = Some (AInt (Z.of_nat i)) ∧
      metadata doc !! "qualifiedName" = Some (default (AStr "") (server !! "qualifiedName")) ∧
      metadata doc !! "displayName" = Some (default (AStr "") (server !! "displayName")) ∧
      metadata doc !! "description" = Some (default (AStr "") (server !! "description")) ∧
      metadata doc !! "homepage" = Some (default (AStr "") (server !! "homepage")) ∧
      metadata doc !! "useCount" = Some (default (AInt 0) (server !! "useCount")) ∧
      metadata doc !! "createdAt" = Some (default (AStr "") (server !! "createdAt")) ∧
      dom (metadata doc) =
        {[ "id"; "qualifiedName"; "displayName"; "description"; "homepage"; "useCount";
           "createdAt" ]}.
Proof.
  rewrite create_documents_imap. split; [apply length_imap |].
  intros i server Hi. exists (server_document L i server).
  rewrite list_lookup_imap, Hi. split; [reflexivity |]. split; [reflexivity |].
  repeat (split; [reflexivity |]). apply server_document_keys.
Qed.

End VectorizeFacts.

(** ** advanced_idea_agent.py *)

Ltac appends_auto :=
  repeat first
    [ apply appends_ret
    | apply appends_lift
    | apply appends_raise
    | apply appends_print; exact I
    | apply appends_emit; exact I
    | apply appends_external; exact I
    | apply appends_for_in; intros
    | apply appends_try_except; [| intros]
    | apply appends_bind; [| intros]
    | progress cbv beta
    | match goal with
      | |- Py.appends _ (if ?b then _ else _) => destruct b
      | |- Py.appends _ (match ?x with _ => _ end) => destruct x
      | |- Py.appends _ ((match ?x with _ => _ end) _) => destruct x
      end ].

Section AdvancedSteps.
Import Py AdvancedIdeaAgent.
Variable L : Lib.

Lemma decompose_idea_step_appends (state : AgentState) :
  appends not_node (decompose_idea_step L state).
Proof. unfold decompose_idea_step, call_model. appends_auto. Qed.

Lemma research_tasks_appends (state : AgentState) :
  appends not_node (research_tasks L state).
Proof.
  unfold research_tasks, research_task, search_web, search_wikipedia. appends_auto.
Qed.

Lemma generate_code_for_tasks_appends (state : AgentState) :
  appends not_node (generate_code_for_tasks L state).
Proof.
  unfold generate_code_for_tasks, code_task, generate_code_snippet, call_model. appends_auto.
Qed.

Lemma create_final_report_appends (state : AgentState) :
  appends not_node (create_final_report L state).
Proof. unfold create_final_report. appends_auto. Qed.

End AdvancedSteps.

Section AdvancedGraph.
Import Py AdvancedIdeaAgent.
Variable L : Lib.

Lemma apply_update_other (keys : list string) (state : AgentState) (key : string) (v : Any)
    (other : string) :
  other ≠ key → apply_update keys state {[ key := v ]} !! other = state !! other.
Proof.
  intros Hne. unfold apply_update. rewrite lookup_union.
  assert (filter (λ kv : string * Any, kv.1 ∈ keys) ({[ key := v ]} : AgentState) !! other = None)
    as ->.
  { apply map_lookup_filter_None. left. by apply lookup_singleton_ne. }
  by destruct (state !! other).
Qed.

Lemma research_tasks_writes (state : AgentState) (tr : list Event) update tr' :
  research_tasks L state tr = (Ok update, tr') →
  ∃ m, update = {[ "research_results" := ADict m ]}.
Proof.
  unfold research_tasks.
  destruct (negb (truthy (dict_get state "decomposed_idea" ANone))).
  - intros [= <- _]. eauto.
  - unfold bind at 1, lift.
    destruct (attr tasks "tasks" (dict_get state "decomposed_idea" ANone)); simpl;
      [| discriminate].
    unfold bind at 1.
    match goal with |- context [for_in ?xs ?body ?s tr] =>
      destruct (for_in xs body s tr) as [[m | e] tr1] end; simpl.
    + intros [= <- _]. eauto.
    + discriminate.
Qed.

Lemma generate_code_for_tasks_writes (state : AgentState) (tr : list Event) update tr' :
  generate_code_for_tasks L state tr = (Ok update, tr') →
  ∃ m, update = {[ "code_snippets" := ADict m ]}.
Proof.
  unfold generate_code_for_tasks.
  destruct (negb (truthy (dict_get state "decomposed_idea" ANone))).
  - intros [= <- _]. eauto.
  - unfold bind at 1, lift.
    destruct (attr tasks "tasks" (dict_get state "decomposed_idea" ANone)); simpl;
      [| discriminate].
    unfold bind at 1.
    match goal with |- context [for_in ?xs ?body ?s tr] =>
      destruct (for_in xs body s tr) as [[m | e] tr1] end; simpl.
    + intros [= <- _]. eauto.
    + discriminate.
Qed.

Lemma create_final_report_writes (state : AgentState) (tr : list Event) update tr' :
  create_final_report L state tr = (Ok update, tr') →
  ∃ report, update = {[ "final_report" := AStr report ]}.
Proof.
  unfold create_final_report.
  destruct (negb (truthy (dict_get state "decomposed_idea" ANone))).
  - intros [= <- _]. eauto.
  - unfold bind at 1, lift.
    destruct (attr summary "summary" (dict_get state "decomposed_idea" ANone)); simpl;
      [| discriminate].
    unfold bind at 1.
    destruct (attr original_idea "original_idea" (dict_get state "decomposed_idea" ANone));
      simpl; [| discriminate].
    unfold bind at 1.
    destruct (attr tasks "tasks" (dict_get state "decomposed_idea" ANone)); simpl;
      [| discriminate].
    unfold bind at 1.
    match goal with |- context [for_in ?xs ?body ?s tr] =>
      destruct (for_in xs body s tr) as [[m | e] tr1] end; simpl; [| discriminate].
    unfold bind.
    destruct (attr implementation_plan "implementation_plan"
                (dict_get state "decomposed_idea" ANone)); simpl; [| discriminate].
    intros [= <- _]. eauto.
Qed.

End AdvancedGraph.


Section AdvancedPipeline.
Import Py AdvancedIdeaAgent.
Variable L : Lib.

Lemma pregel_step_single (g : StateGraph) (fuel : nat) (n : string) (state : AgentState)
    (tr : list Event) :
  pregel_loop g (S fuel) [n] state tr =
  match run_node g state n tr with
  | (Ok w, tr') =>
      let state' := apply_update (channels g) state w in
      pregel_loop g fuel (triggered g [n] state') state' tr'
  | (Raise e, tr') => (Raise e, tr')
  end.
Proof.
  simpl. unfold bind, ret.
  destruct (run_node g state n tr) as [[w | e] tr']; reflexivity.
Qed.

(** The run of the compiled graph, step by step. *)
Lemma invoke_workflow (input : AgentState) (tr : list Event) :
  agent_executor_invoke L input tr =
  let s0 := apply_update AgentState_keys ∅ input in
  match decompose_idea_step L s0 (tr ++ [EvNode "decompose_idea"]) with
  | (Raise e, t1) => (Raise e, t1)
  | (Ok w1, t1) =>
      let s1 := apply_update AgentState_keys s0 w1 in
      match research_tasks L s1 (t1 ++ [EvNode "research_tasks"]) with
      | (Raise e, t2) => (Raise e, t2)
      | (Ok w2, t2) =>
          let s2 := apply_update AgentState_keys s1 w2 in
          match generate_code_for_tasks L s2 (t2 ++ [EvNode "generate_code"]) with
          | (Raise e, t3) => (Raise e, t3)
          | (Ok w3, t3) =>
              let s3 := apply_update AgentState_keys s2 w3 in
              match create_final_report L s3 (t3 ++ [EvNode "create_report"]) with
              | (Raise e, t4) => (Raise e, t4)
              | (Ok w4, t4) => (Ok (apply_update AgentState_keys s3 w4), t4)
              end
          end
      end
  end.
Proof.
  unfold agent_executor_invoke, invoke.
  change (channels (workflow L)) with AgentState_keys.
  change recursion_limit with (S (S (S (S 21)))).
  cbv zeta.
  change (triggered (workflow L) [START] ?s) with ["decompose_idea"].
  rewrite pregel_step_single.
  change (run_node (workflow L) ?s "decompose_idea" tr)
    with (decompose_idea_step L s (tr ++ [EvNode "decompose_idea"])).
  destruct (decompose_idea_step L _ _) as [[w1 | e] t1]; [| reflexivity].
  cbv zeta. change (channels (workflow L)) with AgentState_keys.
  change (triggered (workflow L) ["decompose_idea"] ?s) with ["research_tasks"].
  rewrite pregel_step_single.
  change (run_node (workflow L) ?s "research_tasks" t1)
    with (research_tasks L s (t1 ++ [EvNode "research_tasks"])).
  destruct (research_tasks L _ _) as [[w2 | e] t2]; [| reflexivity].
  cbv zeta. change (channels (workflow L)) with AgentState_keys.
  change (triggered (workflow L) ["research_tasks"] ?s) with ["generate_code"].
  rewrite pregel_step_single.
  change (run_node (workflow L) ?s "generate_code" t2)
    with (generate_code_for_tasks L s (t2 ++ [EvNode "generate_code"])).
  destruct (generate_code_for_tasks L _ _) as [[w3 | e] t3]; [| reflexivity].
  cbv zeta. change (channels (workflow L)) with AgentState_keys.
  change (triggered (workflow L) ["generate_code"] ?s) with ["create_report"].
  rewrite pregel_step_single.
  change (run_node (workflow L) ?s "create_report" t3)
    with (create_final_report L s (t3 ++ [EvNode "create_report"])).
  destruct (create_final_report L _ _) as [[w4 | e] t4]; reflexivity.
Qed.

Lemma nodes_run_app (evs evs' : list Event) :
  nodes_run (evs ++ evs') = nodes_run evs ++ nodes_run evs'.
Proof. apply omap_app. Qed.

Lemma nodes_run_not_node (evs : list Event) : Forall not_node evs → nodes_run evs = [].
Proof.
  induction 1 as [| ev evs Hev _ IH]; [reflexivity |].
  destruct ev; simpl in *; try exact IH. contradiction.
Qed.

(** A node of the graph, entered at history [tr]: the history grows by
    the node's name and by events that are no node entries. *)
Lemma node_entered (step : AgentState → M AgentState) (n : string) (state : AgentState)
    (tr : list Event) :
  (∀ st, appends not_node (step st)) →
  ∃ evs, (step state (tr ++ [EvNode n])).2 = tr ++ evs ∧ nodes_run evs = [n].
Proof.
  intros Hstep. destruct (Hstep state (tr ++ [EvNode n])) as (evs & Htr & Hevs & _).
  exists ([EvNode n] ++ evs). rewrite Htr, <- app_assoc. split; [reflexivity |].
  rewrite nodes_run_app, (nodes_run_not_node evs Hevs). reflexivity.
Qed.


Lemma workflow_edge_cases (a b : string) :
  edge (workflow L) a b →
  (a = START ∧ b = "decompose_idea") ∨
  (a = "decompose_idea" ∧ b = "research_tasks") ∨
  (a = "research_tasks" ∧ b = "generate_code") ∨
  (a = "generate_code" ∧ b = "create_report").
Proof.
  unfold edge. simpl. rewrite !elem_of_cons, elem_of_nil.
  intros [H | [H | [H | [H | []]]]]; inversion H; tauto.
Qed.

Lemma workflow_acyclic (n : string) : ¬ tc (edge (workflow L)) n n.
Proof.
  pose (rank := λ s : string,
          if String.eqb s START then 0%nat
          else if String.eqb s "decompose_idea" then 1%nat
          else if String.eqb s "research_tasks" then 2%nat
          else if String.eqb s "generate_code" then 3%nat
          else 4%nat).
  assert (Hedge : ∀ a b, edge (workflow L) a b → (rank a < rank b)%nat).
  { intros a b Hab.
    destruct (workflow_edge_cases a b Hab) as [[-> ->] | [[-> ->] | [[-> ->] | [-> ->]]]];
      vm_compute; lia. }
  assert (Hpath : ∀ a b, tc (edge (workflow L)) a b → (rank a < rank b)%nat).
  { induction 1 as [a b Hab | a b c Hab _ IH].
    - by apply Hedge.
    - specialize (Hedge a b Hab). lia. }
  intros Hcycle. specialize (Hpath n n Hcycle). lia.
Qed.

(** C1, as amended: [workflow] is a chain of four nodes, decompose_idea
    (decompose_idea_step), research_tasks, generate_code
    (generate_code_for_tasks) and create_report (create_final_report),
    joined by four plain edges from START on; it has no conditional edge,
    every node has at most one successor, and no path leads from a node
    back to itself.  A run of the compiled graph enters these nodes in
    that order, each at most once, the first always; a run that returns a
    state has entered all four, each exactly once.  (A run in which a
    step raises ends at that step; [process_idea] turns it into an error
    dictionary, and enters the same nodes as the run it wraps.) *)
Theorem C1_workflow_is_a_linear_pipeline :
  nodes (workflow L) =
    [("decompose_idea", decompose_idea_step L); ("research_tasks", research_tasks L);
     ("generate_code", generate_code_for_tasks L); ("create_report", create_final_report L)] ∧
  edges (workflow L) =
    [(START, "decompose_idea"); ("decompose_idea", "research_tasks");
     ("research_tasks", "generate_code"); ("generate_code", "create_report")] ∧
  branches (workflow L) = [] ∧
  (∀ a b c, edge (workflow L) a b → edge (workflow L) a c → b = c) ∧
  (∀ n, ¬ tc (edge (workflow L)) n n) ∧
  (∀ (input : AgentState) (tr : list Event),
     ∃ evs : list Event,
       (agent_executor_invoke L input tr).2 = tr ++ evs ∧
       nodes_run evs `prefix_of` pipeline_nodes ∧
       nodes_run evs ≠ [] ∧
       (is_Ok (agent_executor_invoke L input tr).1 → nodes_run evs = pipeline_nodes)) ∧
  (∀ (idea : string) (tr : list Event),
     (process_idea L idea tr).2 = (agent_executor_invoke L {[ "idea" := AStr idea ]} tr).2).
Proof.
  split; [reflexivity |]. split; [reflexivity |]. split; [reflexivity |].
  split; [| split; [exact workflow_acyclic |]; split].
  - intros a b c Hab Hac.
    destruct (workflow_edge_cases a b Hab) as [[-> ->] | [[-> ->] | [[-> ->] | [-> ->]]]];
      destruct (workflow_edge_cases _ c Hac) as [[? ->] | [[? ->] | [[? ->] | [? ->]]]];
      unfold START in *; done.
  - intros input tr. rewrite invoke_workflow. cbv zeta.
    set (s0 := apply_update AgentState_keys ∅ input).
    destruct (node_entered (decompose_idea_step L) "decompose_idea" s0 tr
                (decompose_idea_step_appends L)) as (e1 & H1 & N1).
    destruct (decompose_idea_step L s0 _) as [[w1 | x] t1]; simpl in H1; subst t1.
    2: { exists e1. simpl. rewrite N1. split; [reflexivity |]; split; [by eexists |]; split; [done |]; simpl; first [intros _; reflexivity | intros []]. }
    set (s1 := apply_update AgentState_keys s0 w1).
    destruct (node_entered (research_tasks L) "research_tasks" s1 (tr ++ e1)
                (research_tasks_appends L)) as (e2 & H2 & N2).
    destruct (research_tasks L s1 _) as [[w2 | x] t2]; simpl in H2; subst t2.
    2: { exists (e1 ++ e2). simpl. rewrite app_assoc, nodes_run_app, N1, N2.
         split; [reflexivity |]; split; [by eexists |]; split; [done |]; simpl; first [intros _; reflexivity | intros []]. }
    set (s2 := apply_update AgentState_keys s1 w2).
    destruct (node_entered (generate_code_for_tasks L) "generate_code" s2 ((tr ++ e1) ++ e2)
                (generate_code_for_tasks_appends L)) as (e3 & H3 & N3).
    destruct (generate_code_for_tasks L s2 _) as [[w3 | x] t3]; simpl in H3; subst t3.
    2: { exists (e1 ++ e2 ++ e3). simpl. rewrite !app_assoc, !nodes_run_app, N1, N2, N3.
         split; [reflexivity |]; split; [by eexists |]; split; [done |]; simpl; first [intros _; reflexivity | intros []]. }
    set (s3 := apply_update AgentState_keys s2 w3).
    destruct (node_entered (create_final_report L) "create_report" s3 (((tr ++ e1) ++ e2) ++ e3)
                (create_final_report_appends L)) as (e4 & H4 & N4).
    destruct (create_final_report L s3 _) as [[w4 | x] t4]; simpl in H4; subst t4.
    all: exists (e1 ++ e2 ++ e3 ++ e4); simpl;
      rewrite !app_assoc, !nodes_run_app, N1, N2, N3, N4;
      split; [reflexivity |]; split; [by eexists |]; split; [done |]; simpl; first [intros _; reflexivity | intros []].
  - intros idea tr. unfold process_idea, try_except, bind, ret.
    destruct (agent_executor_invoke L _ tr) as [[st | [cls msg | code]] tr']; reflexivity.
Qed.

End AdvancedPipeline.

Section AdvancedFrame.
Import Py AdvancedIdeaAgent.
Variable L : Lib.

(** C6: a step after the decomposition returns one key, which is not
    decomposed_idea (research_results, code_snippets and final_report
    respectively), so the state the executor builds from what the step
    returned has the same decomposed_idea as the state the step was given,
    whatever that state is.  (A step that raises returns nothing, and the
    run ends with no new state.)  Hence the state a run of the graph
    returns holds, under decomposed_idea, what the state held right after
    the decomposition step. *)
Theorem C6_later_steps_keep_decomposed_idea (state : AgentState) (tr : list Event) :
  let unchanged (step : AgentState → M AgentState) (key : string) :=
    ∀ (update : AgentState) (tr' : list Event),
      step state tr = (Ok update, tr') →
      dom update = {[ key ]} ∧
      update !! "decomposed_idea" = None ∧
      apply_update AgentState_keys state update !! "decomposed_idea"
        = state !! "decomposed_idea" in
  unchanged (research_tasks L) "research_results" ∧
  unchanged (generate_code_for_tasks L) "code_snippets" ∧
  unchanged (create_final_report L) "final_report" ∧
  (∀ final : AgentState,
     (agent_executor_invoke L state tr).1 = Ok final →
     let s0 := apply_update AgentState_keys ∅ state in
     ∃ (w1 : AgentState) (tr1 : list Event),
       decompose_idea_step L s0 (tr ++ [EvNode "decompose_idea"]) = (Ok w1, tr1) ∧
       final !! "decomposed_idea" = apply_update AgentState_keys s0 w1 !! "decomposed_idea").
Proof.
  cbv zeta. split; [| split; [| split]].
  - intros update tr' Hstep. apply research_tasks_writes in Hstep as [m ->].
    split; [apply dom_singleton_L |]. split; [by apply lookup_singleton_ne |].
    by apply apply_update_other.
  - intros update tr' Hstep. apply generate_code_for_tasks_writes in Hstep as [m ->].
    split; [apply dom_singleton_L |]. split; [by apply lookup_singleton_ne |].
    by apply apply_update_other.
  - intros update tr' Hstep. apply create_final_report_writes in Hstep as [m ->].
    split; [apply dom_singleton_L |]. split; [by apply lookup_singleton_ne |].
    by apply apply_update_other.
  - intros final. rewrite invoke_workflow. cbv zeta.
    destruct (decompose_idea_step L _ _) as [[w1 | e] t1]; [| discriminate].
    destruct (research_tasks L _ _) as [[w2 | e] t2] eqn:H2; [| discriminate].
    destruct (generate_code_for_tasks L _ _) as [[w3 | e] t3] eqn:H3; [| discriminate].
    destruct (create_final_report L _ _) as [[w4 | e] t4] eqn:H4; [| discriminate].
    simpl. intros [= <-]. exists w1, t1. split; [reflexivity |].
    apply research_tasks_writes in H2 as [m2 ->].
    apply generate_code_for_tasks_writes in H3 as [m3 ->].
    apply create_final_report_writes in H4 as [m4 ->].
    by rewrite !apply_update_other.
Qed.

End AdvancedFrame.

Section AdvancedSamples.
Import Py AdvancedIdeaAgent.

(** C1, as stated, fails when the model call of the first step raises:
    the run enters decompose_idea only, and ends there with the
    exception, which [process_idea] returns as an error dictionary. *)
Lemma C1_counterexample_model_call_fails :
  let idea := "a bot that posts the news" in
  let run := agent_executor_invoke Sample.model_down {[ "idea" := AStr idea ]} [] in
  run.1 = Raise (PyExc "APIConnectionError" "Connection error.") ∧
  nodes_run run.2 = ["decompose_idea"] ∧
  nodes_run run.2 ≠ pipeline_nodes ∧
  (process_idea Sample.model_down idea []).1 = Ok {[ "error" := AStr "Connection error." ]}.
Proof.
  cbv zeta. split; [vm_compute; reflexivity |].
  split; [vm_compute; reflexivity |].
  split; [vm_compute; discriminate |].
  vm_compute; reflexivity.
Qed.

(** With every service answering, the run returns a state and has
    entered the four nodes. *)
Lemma C1_witness_services_up :
  let run := agent_executor_invoke Sample.services_up
               {[ "idea" := AStr "a bot that posts the news" ]} [] in
  is_Ok run.1 ∧ nodes_run run.2 = pipeline_nodes.
Proof.
  cbv zeta.
  destruct (C1_workflow_is_a_linear_pipeline Sample.services_up)
    as (_ & _ & _ & _ & _ & Hrun & _).
  destruct (Hrun {[ "idea" := AStr "a bot that posts the news" ]} [])
    as (evs & Htr & _ & _ & Hall).
  assert (is_Ok (agent_executor_invoke Sample.services_up
                   {[ "idea" := AStr "a bot that posts the news" ]} []).1) as Hok
    by (vm_compute; exact I).
  split; [exact Hok |].
  rewrite Htr. exact (Hall Hok).
Defined.

End AdvancedSamples.

Section AdvancedSelection.
Import Py AdvancedIdeaAgent.
Variable L : Lib.

(** [search_web] and [search_wikipedia]: the tool built, a failed search
    comes back as text. *)
Lemma search_web_run (query : string) (tr : list Event) :
  search_web L query tr =
  match tavily_tool L with
  | Returns _ =>
      (Ok match tavily_invoke L tr query with
          | Returns results => str L results
          | Fails _ msg => "Ошибка при поиске: " +:+ msg
          end, tr ++ [EvWebSearch query])
  | Fails cls msg => (Raise (PyExc cls msg), tr)
  end.
Proof.
  unfold search_web, try_except, bind, lift, external, ret.
  destruct (tavily_tool L); simpl; [| reflexivity].
  destruct (tavily_invoke L tr query); reflexivity.
Qed.

Lemma search_wikipedia_run (query : string) (tr : list Event) :
  search_wikipedia L query tr =
  match wikipedia_wrapper L with
  | Returns _ =>
      (Ok match wikipedia_run L tr query with
          | Returns text => text
          | Fails _ msg => "Ошибка при поиске в Википедии: " +:+ msg
          end, tr ++ [EvWikipedia query])
  | Fails cls msg => (Raise (PyExc cls msg), tr)
  end.
Proof.
  unfold search_wikipedia, try_except, bind, lift, external, ret.
  destruct (wikipedia_wrapper L); simpl; [| reflexivity].
  destruct (wikipedia_run L tr query); reflexivity.
Qed.

Lemma research_calls_cons (d : DecomposedIdea) (task : Task) (ts : list Task) :
  research_calls L d (task :: ts) = research_calls L d [task] ++ research_calls L d ts.
Proof.
  unfold research_calls. simpl. destruct (is_research_task L task); simpl; reflexivity.
Qed.

(** One round of the loop of [research_tasks], the idea being [d]. *)
Lemma research_task_run (d : DecomposedIdea) (task : Task) (results : gmap string Any)
    (tr : list Event) :
  match research_task L (AObj d) task results tr with
  | (Ok results', tr') =>
      tr' = tr ++ research_calls L d [task] ∧
      dom results' = dom results ∪ list_to_set (name <$> List.filter (is_research_task L) [task])
  | (Raise e, tr') =>
      (∃ evs, tr' = tr ++ evs ∧ evs `prefix_of` research_calls L d [task]) ∧ ¬ tools_built L
  end.
Proof.
  unfold research_task, research_calls, tools_built. simpl.
  destruct (is_research_task L task); simpl.
  - unfold bind at 1. simpl. unfold bind at 1. rewrite search_web_run.
    destruct (tavily_tool L) as [tool | cls msg].
    + unfold bind at 1. rewrite search_wikipedia_run.
      destruct (wikipedia_wrapper L) as [wiki | cls msg].
      * unfold ret. rewrite <- app_assoc. split; [reflexivity |].
        rewrite dom_insert_L. set_solver.
      * split.
        -- eexists [_]. split; [reflexivity |]. by eexists [_].
        -- intros [_ [wiki Hwiki]]. discriminate.
    + split.
      * exists []. rewrite app_nil_r. split; [reflexivity |]. apply prefix_nil.
      * intros [[tool Htool] _]. discriminate.
  - unfold ret. rewrite app_nil_r. split; [reflexivity | set_solver].
Qed.

Lemma research_loop (d : DecomposedIdea) (ts : list Task) (results : gmap string Any)
    (tr : list Event) :
  match for_in ts (research_task L (AObj d)) results tr with
  | (Ok results', tr') =>
      tr' = tr ++ research_calls L d ts ∧
      dom results' = dom results ∪ list_to_set (name <$> List.filter (is_research_task L) ts)
  | (Raise e, tr') =>
      (∃ evs, tr' = tr ++ evs ∧ evs `prefix_of` research_calls L d ts) ∧ ¬ tools_built L
  end.
Proof.
  revert results tr. induction ts as [| task ts IH]; intros results tr.
  - unfold research_calls. simpl. rewrite app_nil_r. split; [done | set_solver].
  - cbn [for_in]. unfold bind.
    pose proof (research_task_run d task results tr) as Hone.
    destruct (research_task L (AObj d) task results tr) as [[results1 | e] tr1].
    + destruct Hone as [-> Hdom1].
      specialize (IH results1 (tr ++ research_calls L d [task])).
      destruct (for_in ts _ results1 _) as [[results' | e] tr'].
      * destruct IH as [-> Hdom]. rewrite (research_calls_cons d task ts), app_assoc.
        split; [reflexivity |].
        rewrite Hdom, Hdom1. simpl. destruct (is_research_task L task); set_solver.
      * destruct IH as [(evs & -> & Hpre) Hfail]. split; [| exact Hfail].
        exists (research_calls L d [task] ++ evs). rewrite app_assoc. split; [reflexivity |].
        rewrite (research_calls_cons d task ts). by apply prefix_app.
    + destruct Hone as [(evs & -> & Hpre) Hfail]. split; [| exact Hfail].
      exists evs. split; [reflexivity |].
      rewrite (research_calls_cons d task ts). by apply prefix_app_r.
Qed.

(** One round of the loop of [generate_code_for_tasks]. *)
Lemma code_calls_cons (d : DecomposedIdea) (task : Task) (ts : list Task) :
  code_calls L d (task :: ts) = code_calls L d [task] ++ code_calls L d ts.
Proof.
  unfold code_calls. simpl. destruct (is_code_task L task); simpl; reflexivity.
Qed.

Lemma code_task_run (d : DecomposedIdea) (task : Task) (snippets : gmap string Any)
    (tr : list Event) :
  match code_task L (AObj d) task snippets tr with
  | (Ok snippets', tr') =>
      tr' = tr ++ code_calls L d [task] ∧
      dom snippets' = dom snippets ∪ list_to_set (name <$> List.filter (is_code_task L) [task])
  | (Raise e, tr') =>
      tr' = tr ++ code_calls L d [task] ∧
      ∃ tr0 prompt cls msg, model_invoke L tr0 prompt = Fails cls msg
  end.
Proof.
  unfold code_task, code_calls. simpl.
  destruct (is_code_task L task); simpl.
  - unfold bind at 1. simpl. unfold bind, generate_code_snippet, call_model, external.
    destruct (model_invoke L tr _) as [code | cls msg] eqn:Hcall; simpl.
    + split; [reflexivity |]. rewrite dom_insert_L. set_solver.
    + split; [reflexivity |]. eauto.
  - unfold ret. rewrite app_nil_r. split; [reflexivity | set_solver].
Qed.

Lemma code_loop (d : DecomposedIdea) (ts : list Task) (snippets : gmap string Any)
    (tr : list Event) :
  match for_in ts (code_task L (AObj d)) snippets tr with
  | (Ok snippets', tr') =>
      tr' = tr ++ code_calls L d ts ∧
      dom snippets' = dom snippets ∪ list_to_set (name <$> List.filter (is_code_task L) ts)
  | (Raise e, tr') =>
      (∃ evs, tr' = tr ++ evs ∧ evs `prefix_of` code_calls L d ts) ∧
      ∃ tr0 prompt cls msg, model_invoke L tr0 prompt = Fails cls msg
  end.
Proof.
  revert snippets tr. induction ts as [| task ts IH]; intros snippets tr.
  - unfold code_calls. simpl. rewrite app_nil_r. split; [done | set_solver].
  - cbn [for_in]. unfold bind.
    pose proof (code_task_run d task snippets tr) as Hone.
    destruct (code_task L (AObj d) task snippets tr) as [[snippets1 | e] tr1].
    + destruct Hone as [-> Hdom1].
      specialize (IH snippets1 (tr ++ code_calls L d [task])).
      destruct (for_in ts _ snippets1 _) as [[snippets' | e] tr'].
      * destruct IH as [-> Hdom]. rewrite (code_calls_cons d task ts), app_assoc. split; [reflexivity |].
        rewrite Hdom, Hdom1. simpl. destruct (is_code_task L task); set_solver.
      * destruct IH as [(evs & -> & Hpre) Hfail]. split; [| exact Hfail].
        exists (code_calls L d [task] ++ evs). rewrite app_assoc. split; [reflexivity |].
        rewrite (code_calls_cons d task ts). by apply prefix_app.
    + destruct Hone as [-> Hfail]. split; [| exact Hfail].
      exists (code_calls L d [task]). split; [reflexivity |].
      rewrite (code_calls_cons d task ts). by apply prefix_app_r.
Qed.


Lemma selected_names (select : Task → bool) (ts : list Task) (key : string) :
  key ∈ (list_to_set (name <$> List.filter select ts) : gset string) ↔
  ∃ task, task ∈ ts ∧ name task = key ∧ select task = true.
Proof.
  rewrite elem_of_list_to_set, list_elem_of_fmap. split.
  - intros (task & -> & Hin). apply list_elem_of_In, filter_In in Hin as [Hin Hsel].
    exists task. by rewrite list_elem_of_In.
  - intros (task & Hin & <- & Hsel). exists task. split; [reflexivity |].
    apply list_elem_of_In, filter_In. by rewrite <- list_elem_of_In.
Qed.

(** C9: the research and code-generation steps select tasks by category.
    When the state has no decomposed_idea, each returns an empty map and
    calls nothing.  When decomposed_idea is a DecomposedIdea [d]:
    [research_tasks] searches (the web, then Wikipedia) for the tasks of
    [d] whose lower-cased category contains "сбор данных" or "поиск" and
    for no other, in order, and when it returns (which it does whenever
    the two search tools can be built) the keys of its research_results
    map are exactly the names of these tasks;
    [generate_code_for_tasks] calls the model for the tasks whose
    lower-cased category contains "разработка" or "код" and for no other,
    in order, and when it returns (which it does whenever no model call
    fails) the keys of its code_snippets map are exactly the names of
    these tasks. *)
Theorem C9_steps_select_tasks_by_category (state : AgentState) (tr : list Event) :
  (∀ task,
     is_research_task L task =
       str_in "сбор данных" (str_lower L (category task)) ||
       str_in "поиск" (str_lower L (category task))) ∧
  (∀ task,
     is_code_task L task =
       str_in "разработка" (str_lower L (category task)) ||
       str_in "код" (str_lower L (category task))) ∧
  (state !! "decomposed_idea" = None →
     research_tasks L state tr = (Ok {[ "research_results" := ADict ∅ ]}, tr) ∧
     generate_code_for_tasks L state tr = (Ok {[ "code_snippets" := ADict ∅ ]}, tr)) ∧
  (∀ d : DecomposedIdea,
     state !! "decomposed_idea" = Some (AObj d) →
     (∃ (r : result AgentState) (evs : list Event),
        research_tasks L state tr = (r, tr ++ evs) ∧
        evs `prefix_of` research_calls L d (tasks d) ∧
        (∀ update, r = Ok update →
           evs = research_calls L d (tasks d) ∧
           ∃ results : gmap string Any,
             update = {[ "research_results" := ADict results ]} ∧
             ∀ key, key ∈ dom results ↔
                    ∃ task, task ∈ tasks d ∧ name task = key ∧ is_research_task L task = true) ∧
        (tools_built L → is_Ok r)) ∧
     (∃ (r : result AgentState) (evs : list Event),
        generate_code_for_tasks L state tr = (r, tr ++ evs) ∧
        evs `prefix_of` code_calls L d (tasks d) ∧
        (∀ update, r = Ok update →
           evs = code_calls L d (tasks d) ∧
           ∃ snippets : gmap string Any,
             update = {[ "code_snippets" := ADict snippets ]} ∧
             ∀ key, key ∈ dom snippets ↔
                    ∃ task, task ∈ tasks d ∧ name task = key ∧ is_code_task L task = true) ∧
        ((∀ tr0 prompt, ∃ code, model_invoke L tr0 prompt = Returns code) → is_Ok r))).
Proof.
  split; [reflexivity |]. split; [reflexivity |]. split.
  - intros Habsent. unfold research_tasks, generate_code_for_tasks, dict_get.
    rewrite Habsent. simpl. split; reflexivity.
  - intros d Hd. split.
    + unfold research_tasks, dict_get. rewrite Hd. simpl.
      unfold bind at 1. simpl. unfold bind.
      pose proof (research_loop d (tasks d) ∅ tr) as Hloop.
      destruct (for_in (tasks d) (research_task L (AObj d)) ∅ tr) as [[results | e] tr'].
      * destruct Hloop as [-> Hdom]. eexists _, _. split; [reflexivity |].
        split; [reflexivity |]. split; [| intros _; exact I].
        intros update [= <-]. split; [reflexivity |]. exists results.
        split; [reflexivity |].
        intros key. rewrite Hdom, dom_empty_L, (left_id_L ∅ (∪)). apply selected_names.
      * destruct Hloop as [(evs & -> & Hpre) Hfail].
        eexists _, _. split; [reflexivity |]. split; [exact Hpre |].
        split; [intros update; discriminate |].
        intros Hbuilt. by destruct Hfail.
    + unfold generate_code_for_tasks, dict_get. rewrite Hd. simpl.
      unfold bind at 1. simpl. unfold bind.
      pose proof (code_loop d (tasks d) ∅ tr) as Hloop.
      destruct (for_in (tasks d) (code_task L (AObj d)) ∅ tr) as [[snippets | e] tr'].
      * destruct Hloop as [-> Hdom]. eexists _, _. split; [reflexivity |].
        split; [reflexivity |]. split; [| intros _; exact I].
        intros update [= <-]. split; [reflexivity |]. exists snippets.
        split; [reflexivity |].
        intros key. rewrite Hdom, dom_empty_L, (left_id_L ∅ (∪)). apply selected_names.
      * destruct Hloop as [(evs & -> & Hpre) (tr0 & prompt & cls & msg & Hfail)].
        eexists _, _. split; [reflexivity |]. split; [exact Hpre |].
        split; [intros update; discriminate |].
        intros Htotal. destruct (Htotal tr0 prompt) as [code Hcode]. congruence.
Qed.

End AdvancedSelection.

Section Decomposition.
Import Py.

Lemma decompose_idea_step_parsed (LA : AdvancedIdeaAgent.Lib) (state : AdvancedIdeaAgent.AgentState)
    (tr : list Event) (idea : AdvancedIdeaAgent.Any) (text : string)
    (parsed : AdvancedIdeaAgent.DecomposedIdea) :
  state !! "idea" = Some idea →
  AdvancedIdeaAgent.model_invoke LA tr
    (AdvancedIdeaAgent.decomposition_prompt LA (AdvancedIdeaAgent.str LA idea)) = Returns text →
  AdvancedIdeaAgent.parser_parse LA text = Returns parsed →
  (AdvancedIdeaAgent.decompose_idea_step LA state tr).1 = Ok {[ "decomposed_idea" := AObj parsed ]}.
Proof.
  intros Hidea Hmodel Hparse.
  unfold AdvancedIdeaAgent.decompose_idea_step, AdvancedIdeaAgent.state_getitem,
    AdvancedIdeaAgent.call_model, try_except, bind, lift, external, print, emit, ret.
  rewrite Hidea. simpl. rewrite Hmodel. simpl. rewrite Hparse. reflexivity.
Qed.

Lemma decompose_idea_step_unparsed (LA : AdvancedIdeaAgent.Lib)
    (state : AdvancedIdeaAgent.AgentState) (tr : list Event) (idea : AdvancedIdeaAgent.Any)
    (text cls msg : string) :
  state !! "idea" = Some idea →
  AdvancedIdeaAgent.model_invoke LA tr
    (AdvancedIdeaAgent.decomposition_prompt LA (AdvancedIdeaAgent.str LA idea)) = Returns text →
  AdvancedIdeaAgent.parser_parse LA text = Fails cls msg →
  (AdvancedIdeaAgent.decompose_idea_step LA state tr).1
    = Ok {[ "decomposed_idea" := AdvancedIdeaAgent.parse_failure_record idea text ]}.
Proof.
  intros Hidea Hmodel Hparse.
  unfold AdvancedIdeaAgent.decompose_idea_step, AdvancedIdeaAgent.state_getitem,
    AdvancedIdeaAgent.call_model, try_except, bind, lift, external, print, emit, ret.
  rewrite Hidea. simpl. rewrite Hmodel. simpl. rewrite Hparse. reflexivity.
Qed.

(** C4, as amended: when the model answers and the parser accepts the
    answer, the decomposition returns the parsed record whole.
    [decompose_idea] returns it as a dictionary with exactly the keys
    original_idea, summary, tasks and implementation_plan, tasks holding
    one dictionary per task, in order, each with exactly the keys name,
    description, tools_needed and estimated_complexity;
    [decompose_idea_step] stores the DecomposedIdea object itself, whose
    tasks carry a category as well.  The task list is the one the parser
    returned: no step checks that it is non-empty.  When the parser
    rejects the answer, [decompose_idea_step] stores a plain dictionary
    whose tasks list is empty (summary "Ошибка парсинга", the raw answer
    as implementation_plan). *)
Theorem C4_decomposition_returns_the_parsed_record
    (L : IdeaAgent.Lib) (LA : AdvancedIdeaAgent.Lib) (tr : list Event) :
  (∀ (idea text : string) (parsed : IdeaAgent.DecomposedIdea),
     IdeaAgent.model_invoke L tr (IdeaAgent.decomposition_prompt L idea) = Returns text →
     IdeaAgent.parser_parse L text = Returns parsed →
     (IdeaAgent.decompose_idea L idea tr).1 = Ok (IdeaAgent.DecomposedIdea_dict parsed) ∧
     dom (IdeaAgent.DecomposedIdea_dict parsed)
       = {[ "original_idea"; "summary"; "tasks"; "implementation_plan" ]} ∧
     IdeaAgent.DecomposedIdea_dict parsed !! "original_idea"
       = Some (AStr (IdeaAgent.original_idea parsed)) ∧
     IdeaAgent.DecomposedIdea_dict parsed !! "summary" = Some (AStr (IdeaAgent.summary parsed)) ∧
     IdeaAgent.DecomposedIdea_dict parsed !! "implementation_plan"
       = Some (AStr (IdeaAgent.implementation_plan parsed)) ∧
     IdeaAgent.DecomposedIdea_dict parsed !! "tasks"
       = Some (AList ((λ t, ADict (IdeaAgent.Task_dict t)) <$> IdeaAgent.tasks parsed)) ∧
     (∀ t, dom (IdeaAgent.Task_dict t)
           = {[ "name"; "description"; "tools_needed"; "estimated_complexity" ]})) ∧
  (∀ (state : AdvancedIdeaAgent.AgentState) (idea : AdvancedIdeaAgent.Any) (text : string),
     state !! "idea" = Some idea →
     AdvancedIdeaAgent.model_invoke LA tr
       (AdvancedIdeaAgent.decomposition_prompt LA (AdvancedIdeaAgent.str LA idea))
       = Returns text →
     match AdvancedIdeaAgent.parser_parse LA text with
     | Returns parsed =>
         (AdvancedIdeaAgent.decompose_idea_step LA state tr).1
           = Ok {[ "decomposed_idea" := AObj parsed ]}
     | Fails _ _ =>
         (AdvancedIdeaAgent.decompose_idea_step LA state tr).1
           = Ok {[ "decomposed_idea" := AdvancedIdeaAgent.parse_failure_record idea text ]} ∧
         getitem (AdvancedIdeaAgent.parse_failure_record idea text) "tasks"
           = Returns (AList []) ∧
         getitem (AdvancedIdeaAgent.parse_failure_record idea text) "summary"
           = Returns (AStr "Ошибка парсинга") ∧
         getitem (AdvancedIdeaAgent.parse_failure_record idea text) "implementation_plan"
           = Returns (AStr text) ∧
         getitem (AdvancedIdeaAgent.parse_failure_record idea text) "original_idea"
           = Returns idea
     end).
Proof.
  split.
  - intros idea text parsed Hmodel Hparse.
    split.
    { unfold IdeaAgent.decompose_idea, IdeaAgent.decomposition_chain_invoke, try_except, bind,
        external, lift, ret.
      rewrite Hmodel. simpl. rewrite Hparse. reflexivity. }
    split; [apply DecomposedIdea_dict_dom |].
    repeat (split; [reflexivity |]). apply Task_dict_dom.
  - intros state idea text Hidea Hmodel.
    destruct (AdvancedIdeaAgent.parser_parse LA text) as [parsed | cls msg] eqn:Hparse.
    + by eapply decompose_idea_step_parsed.
    + split; [by eapply decompose_idea_step_unparsed |].
      repeat split; reflexivity.
Qed.

(** C4, as stated, fails on the fallback of [decompose_idea_step]: when
    the parser rejects the model's answer, the step returns normally and
    the record it yields has an empty tasks list. *)
Lemma C4_counterexample_empty_task_list :
  (AdvancedIdeaAgent.decompose_idea_step Sample.prose_answer
     {[ "idea" := AStr "a bot that posts the news" ]} []).1
  = Ok {[ "decomposed_idea" :=
            ADict {[ "original_idea" := AStr "a bot that posts the news";
                     "summary" := AStr "Ошибка парсинга";
                     "tasks" := AList [];
                     "implementation_plan" := AStr "Sure, here is a plan." ]} ]}.
Proof. vm_compute. reflexivity. Qed.

(** With the sample services the hypotheses of C4 hold: the basic agent
    returns the dictionary of the parsed record, and the advanced step
    stores the parsed object. *)
Lemma C4_witness_sample_services :
  (IdeaAgent.decompose_idea Sample.chat_up "a blog" []).1
    = Ok (IdeaAgent.DecomposedIdea_dict Sample.blog) ∧
  (AdvancedIdeaAgent.decompose_idea_step Sample.services_up
     {[ "idea" := AStr "a bot that posts the news" ]} []).1
    = Ok {[ "decomposed_idea" := AObj Sample.news_bot ]}.
Proof.
  destruct (C4_decomposition_returns_the_parsed_record Sample.chat_up Sample.services_up [])
    as [Hbasic Hadvanced].
  split.
  - exact (proj1 (Hbasic "a blog" "{...}" Sample.blog eq_refl eq_refl)).
  - exact (Hadvanced {[ "idea" := AStr "a bot that posts the news" ]}
             (AStr "a bot that posts the news") "{...}" eq_refl eq_refl).
Defined.

End Decomposition.

(** ** search_chroma.py and explore_chroma.py *)

Section ChromaFacts.
Import Py Chroma.
Variable L : Lib.

Lemma results_printed_app (evs evs' : list Event) :
  results_printed (evs ++ evs') = (results_printed evs + results_printed evs')%nat.
Proof. unfold results_printed. by rewrite List.filter_app, length_app. Qed.

Lemma enumerate_length {X} (start : nat) (xs : list X) : length (enumerate start xs) = length xs.
Proof. unfold enumerate. rewrite length_zip, length_seq. lia. Qed.

(** A row of identifiers the store returned for [n_results]. *)
Lemma bounded_row (tr : list Event) (query_text : string) (n_results : Z) (r : QueryResult)
    (row : list string) :
  query_bounded L →
  collection_query L tr query_text n_results = Returns r →
  list_index (ids r) 0 = Returns row →
  Z.of_nat (length row) ≤ n_results.
Proof.
  intros Hbound Hquery Hrow. specialize (Hbound _ _ _ _ Hquery).
  unfold list_index in Hrow. destruct (ids r !! 0%nat) as [row' |] eqn:Hlook; [| discriminate].
  injection Hrow as ->. rewrite Forall_lookup in Hbound. by apply (Hbound 0%nat).
Qed.

Lemma search_print_result_adds (results : QueryResult) (item : nat * (string * gmap string Any))
    (tr : list Event) :
  ∃ evs, (SearchChroma.print_result L results item tt tr).2 = tr ++ evs ∧
         results_printed evs = 1%nat ∧ Forall not_query evs.
Proof.
  destruct item as [i [doc_id metadata]].
  unfold SearchChroma.print_result, bind, print, emit, lift, ret. simpl.
  destruct (list_index (distances results) 0) as [row |]; simpl;
    [destruct (list_index row i); simpl |];
    eexists; rewrite <- !app_assoc; simpl;
    (split; [reflexivity |]); (split; [reflexivity | repeat constructor]).
Qed.

Lemma explore_print_result_adds (results : QueryResult)
    (item : nat * (string * (string * gmap string Any))) (tr : list Event) :
  ∃ evs, (ExploreChroma.print_result L results item tt tr).2 = tr ++ evs ∧
         results_printed evs = 1%nat ∧ Forall not_query evs.
Proof.
  destruct item as [i [doc_id [doc metadata]]].
  unfold ExploreChroma.print_result, bind, print, emit, lift, ret. simpl.
  destruct (list_index (distances results) 0) as [row |]; simpl;
    [destruct (list_index row i); simpl |];
    eexists; rewrite <- !app_assoc; simpl;
    (split; [reflexivity |]); (split; [reflexivity | repeat constructor]).
Qed.

(** A loop whose every round prints one result prints at most one result
    per item. *)
Lemma print_loop_adds {X} (body : X → unit → M unit) (xs : list X) (tr : list Event) :
  (∀ x tr0, ∃ evs, (body x tt tr0).2 = tr0 ++ evs ∧
                   results_printed evs = 1%nat ∧ Forall not_query evs) →
  ∃ evs, (for_in xs body tt tr).2 = tr ++ evs ∧
         (results_printed evs ≤ length xs)%nat ∧ Forall not_query evs.
Proof.
  intros Hbody. revert tr. induction xs as [| x xs IH]; intros tr.
  - exists []. simpl. rewrite app_nil_r. repeat split; auto.
  - cbn [for_in]. unfold bind.
    destruct (Hbody x tr) as (evs1 & Htr1 & Hone & Hq1).
    destruct (body x tt tr) as [[[] | e] tr1]; simpl in Htr1; subst tr1.
    + destruct (IH (tr ++ evs1)) as (evs & -> & Hle & Hq).
      exists (evs1 ++ evs). rewrite app_assoc, results_printed_app, Hone.
      split; [reflexivity |]. split; [simpl; lia | by apply Forall_app].
    + exists evs1. simpl. rewrite Hone. split; [reflexivity |]. split; [lia | exact Hq1].
Qed.


Lemma not_query_elem (evs : list Event) (q : string) (n : Z) :
  Forall not_query evs → EvQuery q n ∉ evs.
Proof. intros Hall Hin. rewrite Forall_forall in Hall. exact (Hall _ Hin). Qed.

Ltac count_results :=
  rewrite ?results_printed_app;
  repeat match goal with
         | |- context [Chroma.results_printed [?ev]] =>
             first [ change (Chroma.results_printed [ev]) with 0%nat
                   | change (Chroma.results_printed [ev]) with 1%nat ]
         end.

Ltac stops_early :=
  eexists; rewrite <- !app_assoc; split; [reflexivity |];
  split; [count_results; lia |];
  let Hin := fresh "Hin" in intros ? ? Hin; set_unfold in Hin; naive_solver.

(** What a run of [search_collection] (search_chroma.py) appends. *)
Lemma search_collection_adds (query_text : string) (k : Z) (tr : list Event) :
  query_bounded L →
  ∃ evs, (SearchChroma.search_collection L query_text (Some k) tr).2 = tr ++ evs ∧
         Z.of_nat (results_printed evs) ≤ Z.max 0 k ∧
         ∀ q n, EvQuery q n ∈ evs → q = query_text ∧ n = k.
Proof.
  intros Hbound.
  unfold SearchChroma.search_collection, bind, print, emit, external, lift, ret. simpl.
  destruct (PersistentClient L _ _); simpl; [| stops_early].
  destruct (get_collection L _ _); simpl; [| stops_early].
  destruct (collection_query L _ _ _) as [results |] eqn:Hquery; simpl; [| stops_early].
  destruct (list_index (ids results) 0) as [row_ids |] eqn:Hrow; simpl; [| stops_early].
  pose proof (bounded_row _ _ _ _ _ Hbound Hquery Hrow) as Hk.
  destruct (list_index (metadatas results) 0) as [row_metadatas |]; simpl; [| stops_early].
  match goal with |- context [for_in ?xs ?body tt ?tr0] =>
    destruct (print_loop_adds body xs tr0 (search_print_result_adds results))
      as (evs & -> & Hle & Hq) end.
  rewrite enumerate_length, length_zip in Hle.
  eexists. rewrite <- !app_assoc. split; [reflexivity |].
  split.
  - count_results. lia.
  - intros q n Hin. set_unfold in Hin.
    destruct Hin as [Hin | [Hin | [Hin | [Hin | [Hin | [Hin | Hin]]]]]];
      try discriminate; [by injection Hin |].
    exfalso. by eapply not_query_elem.
Qed.

(** What a run of [search_collection] (explore_chroma.py) appends. *)
Lemma explore_search_collection_adds (collection : unit) (query_text : string) (k : Z)
    (tr : list Event) :
  query_bounded L →
  ∃ evs, (ExploreChroma.search_collection L collection query_text (Some k) tr).2 = tr ++ evs ∧
         Z.of_nat (results_printed evs) ≤ Z.max 0 k ∧
         ∀ q n, EvQuery q n ∈ evs → q = query_text ∧ n = k.
Proof.
  intros Hbound.
  unfold ExploreChroma.search_collection, bind, print, emit, external, lift, ret. simpl.
  destruct (collection_query L _ _ _) as [results |] eqn:Hquery; simpl; [| stops_early].
  destruct (list_index (ids results) 0) as [row_ids |] eqn:Hrow; simpl; [| stops_early].
  pose proof (bounded_row _ _ _ _ _ Hbound Hquery Hrow) as Hk.
  destruct (list_index (documents results) 0) as [row_documents |]; simpl; [| stops_early].
  destruct (list_index (metadatas results) 0) as [row_metadatas |]; simpl; [| stops_early].
  match goal with |- context [for_in ?xs ?body tt ?tr0] =>
    destruct (print_loop_adds body xs tr0 (explore_print_result_adds results))
      as (evs & -> & Hle & Hq) end.
  rewrite enumerate_length, !length_zip in Hle.
  eexists. rewrite <- !app_assoc. split; [reflexivity |].
  split.
  - count_results. lia.
  - intros q n Hin. set_unfold in Hin.
    destruct Hin as [Hin | [Hin | [Hin | Hin]]];
      try discriminate; [by injection Hin |].
    exfalso. by eapply not_query_elem.
Qed.

End ChromaFacts.

Section SearchBounds.
Import Py.

Lemma three_entries_bounded : Chroma.query_bounded Sample.three_entries.
Proof.
  intros tr query_text n r. simpl.
  destruct (n <=? 0) eqn:Hn; [discriminate |]. intros [= <-]. simpl.
  apply Z.leb_gt in Hn. constructor; [| constructor].
  rewrite length_take. simpl. lia.
Qed.

Lemma vectorize_retriever_bounded : VectorizeMcpServers.retriever_bounded Sample.vectorize.
Proof.
  intros tr store query k docs. simpl.
  destruct (k <=? 0) eqn:Hk; [discriminate |]. intros [= <-].
  apply Z.leb_gt in Hk. rewrite length_take. lia.
Qed.

(** C5: a search asks the store for [k] results, [k] being 5 when the
    caller gives none, and shows no more than the store returns.  Given
    the stores' contract (a query for [k] results returns at most [k],
    and none for a [k] below 1, where chromadb raises):
    [query_vector_store] returns at most [k] documents, and
    [search_collection], in the search script and in the explore script,
    prints at most [k] results; the one query each of them sends carries
    the caller's query text and [k]. *)
Theorem C5_search_returns_at_most_k
    (LC : Chroma.Lib) (LV : VectorizeMcpServers.Lib) (query : string) (k : Z) (tr : list Event) :
  Chroma.query_bounded LC →
  VectorizeMcpServers.retriever_bounded LV →
  (∀ store docs,
     (VectorizeMcpServers.query_vector_store LV store query (Some k) tr).1 = Ok docs →
     Z.of_nat (length docs) ≤ k) ∧
  (∃ evs,
     (SearchChroma.search_collection LC query (Some k) tr).2 = tr ++ evs ∧
     Z.of_nat (Chroma.results_printed evs) ≤ Z.max 0 k ∧
     ∀ q n, EvQuery q n ∈ evs → q = query ∧ n = k) ∧
  (∀ collection, ∃ evs,
     (ExploreChroma.search_collection LC collection query (Some k) tr).2 = tr ++ evs ∧
     Z.of_nat (Chroma.results_printed evs) ≤ Z.max 0 k ∧
     ∀ q n, EvQuery q n ∈ evs → q = query ∧ n = k) ∧
  (∀ store, VectorizeMcpServers.query_vector_store LV store query None
            = VectorizeMcpServers.query_vector_store LV store query (Some 5)) ∧
  SearchChroma.search_collection LC query None
    = SearchChroma.search_collection LC query (Some 5) ∧
  (∀ collection, ExploreChroma.search_collection LC collection query None
                 = ExploreChroma.search_collection LC collection query (Some 5)).
Proof.
  intros Hquery Hretriever. split; [| split; [| split]].
  - intros store docs.
    unfold VectorizeMcpServers.query_vector_store, bind, external, ret. simpl.
    destruct (VectorizeMcpServers.get_relevant_documents LV tr store query k) as [docs' |]
      eqn:Hdocs; simpl; [| discriminate].
    intros [= <-]. by eapply Hretriever.
  - by apply search_collection_adds.
  - intros collection. by apply explore_search_collection_adds.
  - repeat split; reflexivity.
Qed.

(** The sample store keeps the contract; asked for two results about
    "github", the search script prints two. *)
Lemma C5_witness_three_entries :
  (∃ evs,
     (SearchChroma.search_collection Sample.three_entries "github" (Some 2) []).2 = [] ++ evs ∧
     Z.of_nat (Chroma.results_printed evs) ≤ Z.max 0 2) ∧
  Chroma.results_printed
    (SearchChroma.search_collection Sample.three_entries "github" (Some 2) []).2 = 2%nat.
Proof.
  destruct (C5_search_returns_at_most_k Sample.three_entries Sample.vectorize "github" 2 []
              three_entries_bounded vectorize_retriever_bounded) as (_ & (evs & Htr & Hle & _) & _).
  split; [exists evs; split; [exact Htr | exact Hle] |].
  vm_compute. reflexivity.
Defined.

(** C10: the entry point of the search script.  With fewer than two
    command-line arguments (no query) it prints the usage line and exits
    with status 1; nothing else happens: the database is not opened and
    no query is sent.  With a query and no third argument it searches for
    5 results; with a third argument it searches for [int] of it, and
    raises what [int] raises when that is no integer, before any
    search. *)
Theorem C10_search_script_arguments (L : Chroma.Lib) (argv : list string) (tr : list Event) :
  ((length argv < 2)%nat →
     SearchChroma.main L argv tr
       = (Raise (SystemExit 1), tr ++ [EvPrint SearchChroma.usage])) ∧
  (∀ prog query,
     argv = [prog; query] →
     SearchChroma.main L argv tr = SearchChroma.search_collection L query (Some 5) tr) ∧
  (∀ prog query count rest,
     argv = prog :: query :: count :: rest →
     SearchChroma.main L argv tr =
       match Chroma.py_int L count with
       | Returns n => SearchChroma.search_collection L query (Some n) tr
       | Fails cls msg => (Raise (PyExc cls msg), tr)
       end).
Proof.
  split; [| split].
  - intros Hshort. unfold SearchChroma.main.
    rewrite bool_decide_eq_true_2 by exact Hshort. reflexivity.
  - intros prog query ->. reflexivity.
  - intros prog query count rest ->.
    unfold SearchChroma.main, bind, lift, ret. simpl.
    destruct (Chroma.py_int L count); reflexivity.
Qed.

(** Called with the script name alone, the search script prints its
    usage and exits with status 1; called with "github" and "2" it
    searches for two results. *)
Lemma C10_witness_no_query :
  SearchChroma.main Sample.three_entries ["search_chroma.py"] []
    = (Raise (SystemExit 1), [EvPrint SearchChroma.usage]) ∧
  SearchChroma.main Sample.three_entries ["search_chroma.py"; "github"; "2"] []
    = SearchChroma.search_collection Sample.three_entries "github" (Some 2) [].
Proof.
  split.
  - apply (proj1 (C10_search_script_arguments Sample.three_entries ["search_chroma.py"] [])).
    simpl. lia.
  - exact (proj2 (proj2 (C10_search_script_arguments Sample.three_entries
                           ["search_chroma.py"; "github"; "2"] []))
             "search_chroma.py" "github" "2" [] eq_refl).
Defined.

End SearchBounds.

(** ** Where failures of external calls go *)

Section Handlers.
Import Py.

Lemma appends_weaken {A} (P Q : Event → Prop) (m : M A) :
  (∀ ev, P ev → Q ev) → appends P m → appends Q m.
Proof.
  intros HPQ Hm tr. destruct (Hm tr) as (evs & Htr & Hevs & Hexit).
  exists evs. repeat split; auto. eapply Forall_impl; eauto.
Qed.

(** A run of a graph whose nodes never call [sys.exit] does not either. *)
Lemma pregel_loop_appends (g : AdvancedIdeaAgent.StateGraph) (fuel : nat) :
  (∀ n action state, AdvancedIdeaAgent.assoc n (AdvancedIdeaAgent.nodes g) = Some action →
                     appends any_event (action state)) →
  ∀ todo state, appends any_event (AdvancedIdeaAgent.pregel_loop g fuel todo state).
Proof.
  intros Hnodes. induction fuel as [| fuel IH]; intros todo state.
  - destruct todo; simpl; [apply appends_ret | apply appends_raise].
  - destruct todo as [| n todo]; [apply appends_ret |].
    cbn [AdvancedIdeaAgent.pregel_loop].
    apply appends_bind; [| intros writes; apply IH].
    apply appends_for_in. intros n' acc.
    apply appends_bind; [| intros; apply appends_ret].
    unfold AdvancedIdeaAgent.run_node.
    apply appends_bind; [by apply appends_emit |]. intros _.
    destruct (AdvancedIdeaAgent.assoc n' (AdvancedIdeaAgent.nodes g)) as [action |] eqn:Hn.
    + by eapply Hnodes.
    + apply appends_raise.
Qed.

Lemma agent_executor_invoke_appends (LA : AdvancedIdeaAgent.Lib)
    (input : AdvancedIdeaAgent.AgentState) :
  appends any_event (AdvancedIdeaAgent.agent_executor_invoke LA input).
Proof.
  unfold AdvancedIdeaAgent.agent_executor_invoke, AdvancedIdeaAgent.invoke.
  apply pregel_loop_appends. intros n action state Hn.
  change (AdvancedIdeaAgent.nodes (AdvancedIdeaAgent.workflow LA)) with
    [("decompose_idea", AdvancedIdeaAgent.decompose_idea_step LA);
     ("research_tasks", AdvancedIdeaAgent.research_tasks LA);
     ("generate_code", AdvancedIdeaAgent.generate_code_for_tasks LA);
     ("create_report", AdvancedIdeaAgent.create_final_report LA)] in Hn.
  cbn [AdvancedIdeaAgent.assoc] in Hn.
  repeat match type of Hn with
         | context [String.eqb ?a n] => destruct (String.eqb a n)
         end; first [discriminate | injection Hn as <-].
  - eapply appends_weaken; [| apply decompose_idea_step_appends]. done.
  - eapply appends_weaken; [| apply research_tasks_appends]. done.
  - eapply appends_weaken; [| apply generate_code_for_tasks_appends]. done.
  - eapply appends_weaken; [| apply create_final_report_appends]. done.
Qed.

(** [try: m  except Exception as e: return h e] always returns. *)
Lemma try_except_returns {A} (P : Event → Prop) (m : M A) (h : exn → A) (tr : list Event) :
  appends P m →
  ∃ a, (try_except m (λ e, ret (h e)) tr).1 = Ok a ∧
       ∀ cls msg, (m tr).1 = Raise (PyExc cls msg) → a = h (PyExc cls msg).
Proof.
  intros Hm. destruct (Hm tr) as (evs & _ & _ & Hexit). unfold try_except, ret.
  destruct (m tr) as [[a | [cls msg | code]] tr']; simpl in *.
  - exists a. split; [reflexivity | discriminate].
  - eexists. split; [reflexivity |]. by intros ? ? [= -> ->].
  - by destruct (Hexit code).
Qed.

(** C2, as amended: the handlers are those of the two idea agents.
    [decompose_idea] and [process_idea] wrap their calls in an
    [except Exception] and always return a dictionary, which is
    [{"error": message}] when the model call, or any step of the graph,
    raises; [search_web] and [search_wikipedia], their tool built,
    return a string, the error text when the search raises.  The vectorize, search and
    explore scripts have no handler: what the JSON load or a call to the
    vector store raises leaves [load_mcp_servers], [query_vector_store],
    [search_collection] and the search script's [main] as it is. *)
Theorem C2_only_the_idea_agents_catch
    (L : IdeaAgent.Lib) (LA : AdvancedIdeaAgent.Lib) (LV : VectorizeMcpServers.Lib)
    (LC : Chroma.Lib) (tr : list Event) :
  (∀ idea, ∃ d, (IdeaAgent.decompose_idea L idea tr).1 = Ok d ∧
     ∀ cls msg, IdeaAgent.model_invoke L tr (IdeaAgent.decomposition_prompt L idea)
                = Fails cls msg → d = {[ "error" := AStr msg ]}) ∧
  (∀ idea, ∃ d, (AdvancedIdeaAgent.process_idea LA idea tr).1 = Ok d ∧
     ∀ cls msg, (AdvancedIdeaAgent.agent_executor_invoke LA {[ "idea" := AStr idea ]} tr).1
                = Raise (PyExc cls msg) → d = {[ "error" := AStr msg ]}) ∧
  (∀ query tool,
     AdvancedIdeaAgent.tavily_tool LA = Returns tool →
     (AdvancedIdeaAgent.search_web LA query tr).1 =
       Ok match AdvancedIdeaAgent.tavily_invoke LA tr query with
          | Returns results => AdvancedIdeaAgent.str LA results
          | Fails _ msg => "Ошибка при поиске: " +:+ msg
          end) ∧
  (∀ query wiki,
     AdvancedIdeaAgent.wikipedia_wrapper LA = Returns wiki →
     (AdvancedIdeaAgent.search_wikipedia LA query tr).1 =
       Ok match AdvancedIdeaAgent.wikipedia_run LA tr query with
          | Returns text => text
          | Fails _ msg => "Ошибка при поиске в Википедии: " +:+ msg
          end) ∧
  (∀ file_path cls msg,
     VectorizeMcpServers.read_json LV tr file_path = Fails cls msg →
     (VectorizeMcpServers.load_mcp_servers LV file_path tr).1 = Raise (PyExc cls msg)) ∧
  (∀ store query k cls msg,
     VectorizeMcpServers.get_relevant_documents LV tr store query (default 5 k) = Fails cls msg →
     (VectorizeMcpServers.query_vector_store LV store query k tr).1 = Raise (PyExc cls msg)) ∧
  (∀ query k cls msg,
     Chroma.PersistentClient LC
       (tr ++ [EvPrint ("Using Chroma database at: " +:+
                        Chroma.abspath LC SearchChroma.PERSIST_DIRECTORY)])
       SearchChroma.PERSIST_DIRECTORY = Fails cls msg →
     (SearchChroma.search_collection LC query k tr).1 = Raise (PyExc cls msg) ∧
     ∀ prog, (SearchChroma.main LC [prog; query] tr).1 = Raise (PyExc cls msg)) ∧
  (∀ collection query k cls msg,
     Chroma.collection_query LC (tr ++ [EvPrint (NL +:+ "Searching for: '" +:+ query +:+ "'")])
       query (default 5 k) = Fails cls msg →
     (ExploreChroma.search_collection LC collection query k tr).1 = Raise (PyExc cls msg)).
Proof.
  split; [| split; [| split; [| split; [| split; [| split; [| split]]]]]].
  - intros idea. unfold IdeaAgent.decompose_idea.
    match goal with |- context [try_except ?m _] =>
      destruct (try_except_returns any_event m (λ e, {[ "error" := AStr (exn_str e) ]}) tr)
        as (d & Hd & Herr) end.
    { unfold IdeaAgent.decomposition_chain_invoke. appends_auto. }
    exists d. split; [exact Hd |]. intros cls msg Hfail. apply (Herr cls msg).
    unfold IdeaAgent.decomposition_chain_invoke, bind, external. rewrite Hfail. reflexivity.
  - intros idea. unfold AdvancedIdeaAgent.process_idea.
    match goal with |- context [try_except ?m _] =>
      destruct (try_except_returns any_event m (λ e, {[ "error" := AStr (exn_str e) ]}) tr)
        as (d & Hd & Herr) end.
    { apply appends_bind; [apply agent_executor_invoke_appends | intros; apply appends_ret]. }
    exists d. split; [exact Hd |]. intros cls msg Hfail. apply (Herr cls msg).
    unfold bind.
    destruct (AdvancedIdeaAgent.agent_executor_invoke LA _ tr) as [[st | e] tr'];
      simpl in *; congruence.
  - intros query tool Htool. rewrite search_web_run, Htool. reflexivity.
  - intros query wiki Hwiki. rewrite search_wikipedia_run, Hwiki. reflexivity.
  - intros file_path cls msg Hfail.
    unfold VectorizeMcpServers.load_mcp_servers, bind, external. rewrite Hfail. reflexivity.
  - intros store query k cls msg Hfail.
    unfold VectorizeMcpServers.query_vector_store, bind, external. rewrite Hfail. reflexivity.
  - intros query k cls msg Hfail.
    assert ((SearchChroma.search_collection LC query k tr).1 = Raise (PyExc cls msg)) as Hsearch.
    { unfold SearchChroma.search_collection, bind, print, emit, external. simpl.
      rewrite Hfail. reflexivity. }
    split; [exact Hsearch |]. intros prog.
    change (SearchChroma.main LC [prog; query] tr)
      with (SearchChroma.search_collection LC query (Some 5) tr).
    unfold SearchChroma.search_collection, bind, print, emit, external. simpl.
    rewrite Hfail. reflexivity.
  - intros collection query k cls msg Hfail.
    unfold ExploreChroma.search_collection, bind, print, emit, external. simpl.
    rewrite Hfail. reflexivity.
Qed.

(** C2, as stated, fails outside the idea agents.  The search script
    has no handler: when the database cannot be opened, the exception
    leaves [main]; and [load_mcp_servers] lets the failure of the file
    read through. *)
Lemma C2_counterexample_unhandled_failures :
  SearchChroma.main Sample.no_database ["search_chroma.py"; "github"] []
    = (Raise (PyExc "ValueError" "Could not connect to tenant default_tenant."),
       [EvPrint "Using Chroma database at: /srv/mcp/./chroma_db";
        EvChromaClient "./chroma_db"]) ∧
  VectorizeMcpServers.load_mcp_servers Sample.vectorize VectorizeMcpServers.MCP_SERVERS_FILE []
    = (Raise (PyExc "FileNotFoundError" "No such file or directory"),
       [EvReadFile "mcp-servers.json"]).
Proof. split; vm_compute; reflexivity. Qed.

End Handlers.

(** ** The theorems at the sample inputs *)

Section Witnesses.
Import Py.

(** The sample vector store refuses to open: the failure leaves the
    search script; the sample model being down, [process_idea] returns
    an error dictionary. *)
Lemma C2_witness_sample_failures :
  (SearchChroma.search_collection Sample.no_database "github" None []).1
    = Raise (PyExc "ValueError" "Could not connect to tenant default_tenant.") ∧
  ∃ d, (AdvancedIdeaAgent.process_idea Sample.model_down "a bot that posts the news" []).1
       = Ok d.
Proof.
  destruct (C2_only_the_idea_agents_catch Sample.chat_up Sample.model_down Sample.vectorize
              Sample.no_database []) as (_ & Hprocess & _ & _ & _ & _ & Hsearch & _).
  split.
  - exact (proj1 (Hsearch "github" None "ValueError"
                    "Could not connect to tenant default_tenant." eq_refl)).
  - destruct (Hprocess "a bot that posts the news") as (d & Hd & _). exists d. exact Hd.
Defined.

(** Two catalog entries give two documents; the second has no useCount
    and gets 0. *)
Lemma C3_witness_two_servers :
  length (VectorizeMcpServers.create_documents_from_servers Sample.vectorize
            [Sample.github; Sample.postgres]) = 2%nat ∧
  ∃ doc,
    VectorizeMcpServers.create_documents_from_servers Sample.vectorize
      [Sample.github; Sample.postgres] !! 1%nat = Some doc ∧
    VectorizeMcpServers.metadata doc !! "useCount" = Some (AInt 0) ∧
    VectorizeMcpServers.metadata doc !! "displayName" = Some (AStr "Postgres") ∧
    VectorizeMcpServers.metadata doc !! "id" = Some (AInt 1).
Proof.
  destruct (C3_one_document_per_server Sample.vectorize [Sample.github; Sample.postgres])
    as [Hlen Hdocs].
  split; [exact Hlen |].
  destruct (Hdocs 1%nat Sample.postgres eq_refl)
    as (doc & Hdoc & _ & Hid & _ & Hname & _ & _ & Hcount & _).
  exists doc. split; [exact Hdoc |]. split; [exact Hcount |]. split; [exact Hname | exact Hid].
Defined.

(** After the research step on the sample idea, the state still holds
    the sample idea. *)
Lemma C6_witness_news_bot :
  let state : AdvancedIdeaAgent.AgentState :=
    {[ "idea" := AStr "a bot that posts the news";
       "decomposed_idea" := AObj Sample.news_bot ]} in
  let update : AdvancedIdeaAgent.AgentState :=
    {[ "research_results" :=
         ADict {[ "collect" :=
                    ADict {[ "web_search" := AStr "<list>";
                             "wikipedia" := AStr "News is information about current events." ]} ]} ]} in
  AdvancedIdeaAgent.research_tasks Sample.services_up state []
    = (Ok update, [EvWebSearch "news bot collect"; EvWikipedia "collect"]) ∧
  AdvancedIdeaAgent.apply_update AdvancedIdeaAgent.AgentState_keys state update
    !! "decomposed_idea" = state !! "decomposed_idea".
Proof.
  cbv zeta.
  assert (AdvancedIdeaAgent.research_tasks Sample.services_up
            {[ "idea" := AStr "a bot that posts the news";
               "decomposed_idea" := AObj Sample.news_bot ]} []
          = (Ok {[ "research_results" :=
                     ADict {[ "collect" :=
                                ADict {[ "web_search" := AStr "<list>";
                                         "wikipedia" :=
                                           AStr "News is information about current events." ]} ]} ]},
             [EvWebSearch "news bot collect"; EvWikipedia "collect"])) as Hrun
    by (vm_compute; reflexivity).
  split; [exact Hrun |].
  destruct (C6_later_steps_keep_decomposed_idea Sample.services_up
              {[ "idea" := AStr "a bot that posts the news";
                 "decomposed_idea" := AObj Sample.news_bot ]} []) as (Hresearch & _).
  exact (proj2 (proj2 (Hresearch _ _ Hrun))).
Defined.

(** With no key anywhere the scripts stop at the check; with a key in
    the .env file alone they go on. *)
Lemma C7_witness_key_in_dotenv :
  IdeaAgent.run_script ∅ ∅ (print "started") [] = (Raise IdeaAgent.api_key_error, []) ∧
  AdvancedIdeaAgent.run_script {[ "DEEPSEEK_API_KEY" := "sk-sample" ]} ∅ (print "started") []
    = (Ok (), [EvPrint "started"]).
Proof.
  split.
  - apply (proj1 (proj2 (C7_api_key_required ∅ ∅ [] () (print "started")))). left. reflexivity.
  - assert (IdeaAgent.getenv (IdeaAgent.load_dotenv {[ "DEEPSEEK_API_KEY" := "sk-sample" ]} ∅)
              "DEEPSEEK_API_KEY" = Some "sk-sample") as Hkey by (vm_compute; reflexivity).
    destruct (proj1 (proj2 (proj2 (C7_api_key_required {[ "DEEPSEEK_API_KEY" := "sk-sample" ]}
                                     ∅ [] () (print "started")))) "sk-sample" Hkey)
      as (_ & _ & _ & ->); [discriminate | reflexivity].
Defined.

(** The basic agent on the sample answer: the parsed record. *)
Lemma C8_witness_blog :
  ∃ d evs,
    IdeaAgent.decompose_idea Sample.chat_up "a blog" [] = (Ok d, [] ++ evs) ∧
    d = IdeaAgent.DecomposedIdea_dict Sample.blog.
Proof.
  destruct (C8_decompose_idea_three_shapes Sample.chat_up "a blog" [])
    as ((d & evs & Hrun & Hshape) & _).
  exists d, evs. split; [exact Hrun |]. exact (proj1 Hshape).
Defined.

(** On the sample idea the research step searches for "collect" only
    and returns, and the code step, the model answering, returns. *)
Lemma C9_witness_news_bot :
  let state : AdvancedIdeaAgent.AgentState := {[ "decomposed_idea" := AObj Sample.news_bot ]} in
  (∃ results,
     AdvancedIdeaAgent.research_tasks Sample.services_up state []
       = (Ok {[ "research_results" := ADict results ]},
          [] ++ AdvancedIdeaAgent.research_calls Sample.services_up Sample.news_bot
                  (AdvancedIdeaAgent.tasks Sample.news_bot)) ∧
     "collect" ∈ dom results ∧ "build" ∉ dom results) ∧
  AdvancedIdeaAgent.research_calls Sample.services_up Sample.news_bot
    (AdvancedIdeaAgent.tasks Sample.news_bot)
    = [EvWebSearch "news bot collect"; EvWikipedia "collect"] ∧
  is_Ok (AdvancedIdeaAgent.generate_code_for_tasks Sample.services_up state []).1.
Proof.
  cbv zeta.
  assert (({[ "decomposed_idea" := AObj Sample.news_bot ]} : AdvancedIdeaAgent.AgentState)
            !! "decomposed_idea" = Some (AObj Sample.news_bot)) as Hidea
    by (vm_compute; reflexivity).
  destruct (C9_steps_select_tasks_by_category Sample.services_up
              {[ "decomposed_idea" := AObj Sample.news_bot ]} []) as (_ & _ & _ & Hsel).
  destruct (Hsel Sample.news_bot Hidea)
    as ((r & evs & Hresearch & _ & Hresults & Hbuilt) & (r' & evs' & Hcode & _ & _ & Htotal)).
  split; [| split].
  - assert (is_Ok r) as Hok by (apply Hbuilt; split; eexists; reflexivity).
    destruct r as [update | e]; [| destruct Hok].
    destruct (Hresults update eq_refl) as (-> & results & -> & Hkeys).
    exists results. split; [exact Hresearch |]. split.
    + apply Hkeys. exists Sample.collect. split; [by constructor |].
      split; [reflexivity | vm_compute; reflexivity].
    + intros Hbuild. apply Hkeys in Hbuild as (task & Hin & Hname & Hselected).
      apply list_elem_of_In in Hin. simpl in Hin.
      destruct Hin as [<- | [<- | [<- | []]]]; vm_compute in Hselected, Hname; discriminate.
  - vm_compute. reflexivity.
  - rewrite Hcode. apply Htotal. intros tr0 prompt. eexists. reflexivity.
Defined.

End Witnesses.

(** ** The fallback record of the decomposition step *)

Section ParseFailure.
Import Py AdvancedIdeaAgent.
Variable L : Lib.

Lemma input_state_idea (idea : string) :
  apply_update AgentState_keys ∅ {[ "idea" := AStr idea ]} !! "idea" = Some (AStr idea).
Proof.
  unfold apply_update. rewrite lookup_union.
  rewrite (map_lookup_filter_Some_2 _ _ "idea" (AStr idea)); [reflexivity | |].
  - apply lookup_singleton_eq.
  - simpl. unfold AgentState_keys. set_solver.
Qed.

Lemma fallback_in_state (state : AgentState) (idea : Any) (text : string) :
  dict_get (apply_update AgentState_keys state
              {[ "decomposed_idea" := parse_failure_record idea text ]})
           "decomposed_idea" ANone
  = parse_failure_record idea text.
Proof.
  unfold dict_get, apply_update. rewrite lookup_union.
  rewrite (map_lookup_filter_Some_2 _ _ "decomposed_idea" (parse_failure_record idea text)).
  - by destruct (state !! "decomposed_idea").
  - apply lookup_singleton_eq.
  - simpl. unfold AgentState_keys. set_solver.
Qed.

(** When the parser rejects the model's answer, the decomposition step
    stores a dictionary where the later steps expect a DecomposedIdea:
    the research step fails on its [.tasks], the run ends there, after two
    of the four nodes, and [process_idea] returns the AttributeError as an
    error dictionary.  The fallback record never reaches the report. *)
Theorem X1_parse_failure_ends_the_run (idea text cls msg : string) (tr : list Event) :
  model_invoke L (tr ++ [EvNode "decompose_idea"]) (decomposition_prompt L idea) = Returns text →
  parser_parse L text = Fails cls msg →
  agent_executor_invoke L {[ "idea" := AStr idea ]} tr
    = (Raise (PyExc "AttributeError" "'dict' object has no attribute 'tasks'"),
       tr ++ [EvNode "decompose_idea"; EvModel (decomposition_prompt L idea);
              EvPrint ("Ошибка при парсинге: " +:+ msg); EvNode "research_tasks"]) ∧
  (process_idea L idea tr).1
    = Ok {[ "error" := AStr "'dict' object has no attribute 'tasks'" ]}.
Proof.
  intros Hmodel Hparse.
  assert (agent_executor_invoke L {[ "idea" := AStr idea ]} tr
          = (Raise (PyExc "AttributeError" "'dict' object has no attribute 'tasks'"),
             tr ++ [EvNode "decompose_idea"; EvModel (decomposition_prompt L idea);
                    EvPrint ("Ошибка при парсинге: " +:+ msg); EvNode "research_tasks"]))
    as Hrun.
  { rewrite invoke_workflow. cbv zeta.
    unfold decompose_idea_step at 1.
    unfold state_getitem, call_model, try_except, bind, lift, external, print, emit, ret.
    rewrite input_state_idea. simpl. rewrite Hmodel. simpl. rewrite Hparse. simpl.
    unfold research_tasks. rewrite fallback_in_state.
    rewrite <- !app_assoc. reflexivity. }
  split; [exact Hrun |].
  unfold process_idea, try_except, bind. rewrite Hrun. reflexivity.
Qed.

End ParseFailure.

Section ParseFailureSample.
Import Py AdvancedIdeaAgent.

(** The sample model answers in prose: the run ends in the research
    step. *)
Lemma X1_witness_prose_answer :
  AdvancedIdeaAgent.nodes_run
    (agent_executor_invoke Sample.prose_answer {[ "idea" := AStr "a bot that posts the news" ]} []).2
    = ["decompose_idea"; "research_tasks"] ∧
  (process_idea Sample.prose_answer "a bot that posts the news" []).1
    = Ok {[ "error" := AStr "'dict' object has no attribute 'tasks'" ]}.
Proof.
  destruct (X1_parse_failure_ends_the_run Sample.prose_answer "a bot that posts the news"
              "Sure, here is a plan." "OutputParserException" "Invalid json output" []
              eq_refl eq_refl) as [Hrun Hprocess].
  split; [| exact Hprocess].
  rewrite Hrun. reflexivity.
Defined.

End ParseFailureSample.
